(** * agent.py: a pytest generator driven by a hosted chat model

    Shallow embedding of [agent.py] (signature extraction, prompt
    templating, the model call, the output guard and the driver [main])
    and the properties its specification states of them.

    Python [str] values are sequences of Unicode code points and are
    modelled as lists of code points ([N]).  The builtins the program calls
    ([str.splitlines], [str.strip], [str.startswith], [str.join],
    [list.insert], [pathlib]'s [stem] and [parent]) are modelled after
    CPython.  The libraries it calls (the parser of [ast], [inspect.cleandoc],
    the chat client, [subprocess]) are parameters of the embedding, gathered
    in the class [Runtime].  The file system holds text files only, and
    writing one always succeeds. *)

From Stdlib Require Import NArith ZArith QArith Lia Ascii String.
From stdpp Require Import base list gmap.

Local Open Scope N_scope.

(** ** Python strings *)

Module Py.

(** A code point and a [str]. *)
Abbreviation char := N (only parsing).
Abbreviation str := (list N) (only parsing).

(** Decoding of the bytes of a UTF-8 literal into code points: the way the
    Python compiler reads the literals of a UTF-8 source file. *)
Fixpoint utf8_decode (bs : list N) : str :=
  match bs with
  | [] => []
  | b0 :: r0 =>
      if b0 <? 128 then b0 :: utf8_decode r0
      else
        match r0 with
        | [] => []
        | b1 :: r1 =>
            if b0 <? 224 then ((b0 - 192) * 64 + (b1 - 128)) :: utf8_decode r1
            else
              match r1 with
              | [] => []
              | b2 :: r2 =>
                  if b0 <? 240
                  then ((b0 - 224) * 4096 + (b1 - 128) * 64 + (b2 - 128))
                         :: utf8_decode r2
                  else
                    match r2 with
                    | [] => []
                    | b3 :: r3 =>
                        ((b0 - 240) * 262144 + (b1 - 128) * 4096
                         + (b2 - 128) * 64 + (b3 - 128)) :: utf8_decode r3
                    end
              end
        end
  end.

(** [u "text"] is the Python literal ["text"]. *)
Definition u (s : string) : str :=
  utf8_decode (map N_of_ascii (list_ascii_of_string s)).

Definition LF : char := 10.
Definition CR : char := 13.
Definition QUOTE : char := 34.

(** The characters [str.splitlines] breaks lines at: \n \v \f \r, the
    separators \x1c \x1d \x1e, NEL \x85, and the line and paragraph
    separators U+2028 and U+2029. *)
Definition is_linebreak (c : char) : bool :=
  (c =? 10) || (c =? 11) || (c =? 12) || (c =? 13) || (c =? 28) || (c =? 29)
  || (c =? 30) || (c =? 133) || (c =? 8232) || (c =? 8233).

(** The characters [str.strip()] removes ([str.isspace]). *)
Definition is_space (c : char) : bool :=
  ((9 <=? c) && (c <=? 13)) || ((28 <=? c) && (c <=? 32))
  || (c =? 133) || (c =? 160) || (c =? 5760)
  || ((8192 <=? c) && (c <=? 8202))
  || (c =? 8232) || (c =? 8233) || (c =? 8239) || (c =? 8287) || (c =? 12288).

(** [s.splitlines()]: [cur] holds, reversed, the characters of the line
    being read.  A line break ends the current line, "\r\n" counting as one
    break; no empty line is produced after the last break. *)
Fixpoint splitlines_from (cur : str) (s : str) : list str :=
  match s with
  | [] => match cur with [] => [] | _ => [rev cur] end
  | c :: s' =>
      if is_linebreak c then
        rev cur ::
          match s' with
          | c' :: s'' =>
              if (c =? CR) && (c' =? LF) then splitlines_from [] s''
              else splitlines_from [] s'
          | [] => splitlines_from [] s'
          end
      else splitlines_from (c :: cur) s'
  end.

Definition splitlines (s : str) : list str := splitlines_from [] s.

(** [s.lstrip()], [s.rstrip()] and [s.strip()]. *)
Fixpoint lstrip (s : str) : str :=
  match s with
  | [] => []
  | c :: s' => if is_space c then lstrip s' else s
  end.

Fixpoint rstrip (s : str) : str :=
  match s with
  | [] => []
  | c :: s' =>
      match rstrip s' with
      | [] => if is_space c then [] else [c]
      | r => c :: r
      end
  end.

Definition strip (s : str) : str := rstrip (lstrip s).

(** [s.startswith(p)]. *)
Fixpoint startswith (p s : str) : bool :=
  match p, s with
  | [], _ => true
  | _ :: _, [] => false
  | a :: p', b :: s' => (a =? b) && startswith p' s'
  end.

(** [sep.join(l)]. *)
Fixpoint join (sep : str) (l : list str) : str :=
  match l with
  | [] => []
  | [x] => x
  | x :: l' => x ++ sep ++ join sep l'
  end.

(** [l.insert(i, x)] for [i >= 0]: an index past the end appends. *)
Definition insert_at {A} (i : nat) (x : A) (l : list A) : list A :=
  take i l ++ x :: drop i l.

End Py.

Import Py.

(** ** Data model *)

(** The dictionaries [{"name": ..., "args": ..., "doc": ...}] built by the
    extractor. *)
Record FunctionSignature : Type := mkSig {
  name : str;
  args : list str;
  doc : option str
}.

(** ** Output guard *)

(** [', '.join([f['name'] for f in functions])]. *)
Definition joined_names (functions : list FunctionSignature) : str :=
  join (u ", ") (map name functions).

(** The two prefixes the guard looks for. *)
Definition from_prefix (module_name : str) : str :=
  u "from " ++ module_name ++ u " import".
Definition import_prefix (module_name : str) : str :=
  u "import " ++ module_name.

(** [import_stmt]: the [from] form if [functions] is not empty, else the
    plain import. *)
Definition import_stmt (module_name : str) (functions : list FunctionSignature) : str :=
  match functions with
  | [] => u "import " ++ module_name
  | _ :: _ => u "from " ++ module_name ++ u " import " ++ joined_names functions
  end.

(** [lines and lines[0].strip().startswith("import pytest")]. *)
Definition has_pytest_header (lines : list str) : bool :=
  match lines with
  | [] => false
  | l0 :: _ => startswith (u "import pytest") (strip l0)
  end.

(** The test applied to each line by [any(...)]. *)
Definition imports_module (module_name : str) (line : str) : bool :=
  startswith (from_prefix module_name) (strip line)
  || startswith (import_prefix module_name) (strip line).

(** The value of [lines] when [ensure_imports_and_header] returns. *)
Definition guarded_lines (module_name generated : str)
    (functions : list FunctionSignature) : list str :=
  let lines := splitlines generated in
  let lines :=
    if negb (has_pytest_header lines)
    then insert_at 0 (u "import pytest") lines else lines in
  if negb (existsb (imports_module module_name) lines)
  then insert_at 1 (import_stmt module_name functions) lines else lines.

Definition ensure_imports_and_header (module_name generated : str)
    (functions : list FunctionSignature) : str :=
  join [LF] (guarded_lines module_name generated functions) ++ [LF].

(** ** Signature extractor *)

(** The part of Python's [ast] the extractor inspects. *)
Module Ast.

Inductive constant : Type :=
| CStr (s : str)
| COther.

Inductive expr : Type :=
| Constant (value : constant)
| OtherExpr.

(** [ast.arg]: a parameter; [.arg] is its name. *)
Record arg_node : Type := mkArg { arg : str }.

(** [ast.arguments], the parameters of
    [def f(posonlyargs, /, args, *vararg, kwonlyargs, **kwarg)]. *)
Record arguments : Type := mkArguments {
  posonlyargs : list arg_node;
  args : list arg_node;
  vararg : option arg_node;
  kwonlyargs : list arg_node;
  kwarg : option arg_node
}.

(** Statements: [def], [async def], [class], an expression statement, a
    compound statement ([if], [for], [while], [with], [try]) with the
    statements it contains, and any other statement. *)
#[local] Unset Elimination Schemes.
Inductive stmt : Type :=
| FunctionDef (name : str) (a : arguments) (body : list stmt)
| AsyncFunctionDef (name : str) (a : arguments) (body : list stmt)
| ClassDef (name : str) (body : list stmt)
| Expr (value : expr)
| Compound (body : list stmt)
| OtherStmt.
#[local] Set Elimination Schemes.

(** [ast.Module]. *)
Record module : Type := Module { body : list stmt }.

(** [ast.get_docstring(node)] for a function node with body [b];
    [cleandoc] is [inspect.cleandoc]. *)
Definition get_docstring (cleandoc : str → str) (b : list stmt) : option str :=
  match b with
  | Expr (Constant (CStr text)) :: _ => Some (cleandoc text)
  | _ => None
  end.

End Ast.

(** One iteration of the loop over [tree.body]. *)
Definition visit (cleandoc : str → str) (funcs : list FunctionSignature)
    (node : Ast.stmt) : list FunctionSignature :=
  match node with
  | Ast.FunctionDef n a b =>
      let arg_names := map Ast.arg (Ast.args a) in
      let doc := Ast.get_docstring cleandoc b in
      funcs ++ [mkSig n arg_names doc]
  | _ => funcs
  end.

(** The loop of [extract_top_level_functions], from [funcs = []]. *)
Definition collect_functions (cleandoc : str → str) (tree : Ast.module)
    : list FunctionSignature :=
  foldl (visit cleandoc) [] (Ast.body tree).

(** ** Prompt builder *)

Definition system_prompt_text : str :=
  u "Você é um assistente que produz arquivos de teste (pytest) para módulos Python. "
  ++ u "Retorne APENAS o conteúdo do arquivo de teste em Python (sem comentários, sem markdown, "
  ++ u "sem explicação). O primeiro caractere do arquivo deve começar com 'import pytest'.".

(** [f"- {f['name']}({', '.join(f['args'])})"]. *)
Definition render_signature (f : FunctionSignature) : str :=
  u "- " ++ name f ++ u "(" ++ join (u ", ") (args f) ++ u ")".

Definition placeholder : str := u "(nenhuma função top-level encontrada)".

Definition funcs_list_text (functions : list FunctionSignature) : str :=
  match functions with
  | [] => placeholder
  | _ :: _ => join [LF] (map render_signature functions)
  end.

Definition tested_symbols (functions : list FunctionSignature) : str :=
  match functions with
  | [] => u "*"
  | _ :: _ => joined_names functions
  end.

(** The f-string of [build_prompts], before [.strip()]. *)
Definition human_template (module_name : str)
    (functions : list FunctionSignature) : str :=
  [LF]
  ++ u "Gere um arquivo pytest para o módulo " ++ [QUOTE] ++ module_name
       ++ [QUOTE] ++ u ". " ++ [LF]
  ++ u "Regras obrigatórias:" ++ [LF]
  ++ u "1) A primeira linha do arquivo deve ser: import pytest" ++ [LF]
  ++ u "2) Inclua import dos simbolos testados: from " ++ module_name
       ++ u " import " ++ tested_symbols functions ++ [LF]
  ++ u "3) Para cada função top-level listada abaixo gere AO MENOS 2 testes:" ++ [LF]
  ++ u "   - def test_<func>_success(): teste de comportamento típico/esperado" ++ [LF]
  ++ u "   - def test_<func>_failure(): teste de caso limite ou exceção esperada (use pytest.raises quando apropriado)" ++ [LF]
  ++ u "4) Use asserts claros (assert resultado == esperado) e evite chamadas de rede, tempo ou I/O." ++ [LF]
  ++ u "5) Saia apenas com código Python válido (sem explicações). " ++ [LF]
  ++ [LF]
  ++ u "Módulo (conteúdo):" ++ [LF]
  ++ [LF]
  ++ u "Funções a serem testadas:" ++ [LF]
  ++ funcs_list_text functions ++ [LF]
  ++ [LF]
  ++ u "Gerar agora somente o conteúdo do arquivo test_" ++ module_name
       ++ u ".py" ++ [LF].

Definition build_prompts (module_name module_code : str)
    (functions : list FunctionSignature) : str * str :=
  (strip system_prompt_text, strip (human_template module_name functions)).

(** ** The world the program runs in *)

(** A [pathlib] path, as the list of its components. *)
Abbreviation Path := (list (list N)) (only parsing).

Definition path_name (p : Path) : str := default [] (last p).
Definition path_parent (p : Path) : Path := removelast p.
(** [p / child] for a single component [child]. *)
Definition joinpath (p : Path) (child : str) : Path := p ++ [child].

(** [name.rfind('.')]. *)
Fixpoint rfind_dot (s : str) : option nat :=
  match s with
  | [] => None
  | c :: s' =>
      match rfind_dot s' with
      | Some i => Some (S i)
      | None => if c =? 46 then Some 0%nat else None
      end
  end.

(** [p.stem]: the final component without its last suffix,
    [name[:i] if 0 < i < len(name) - 1 else name] for [i = name.rfind('.')]. *)
Definition stem (p : Path) : str :=
  let name := path_name p in
  match rfind_dot name with
  | Some i =>
      if (0 <? i)%nat && (i <? length name - 1)%nat then take i name else name
  | None => name
  end.

(** Exceptions: the two the program raises itself (and [open] for a missing
    file), and those raised inside a library. *)
Inductive exn : Type :=
| FileNotFoundError (p : Path)
| RuntimeError (msg : str)
| LibraryError (code : N).

(** The keyword arguments given to [AzureChatOpenAI]. *)
Record llm_config : Type := mkConfig {
  azure_deployment : str;
  api_version : str;
  temperature : Q;
  max_retries : Z
}.

(** What the program prints. *)
Inductive message : Type :=
| MsgGenerated (p : Path)
| MsgRunning (p : Path)
| MsgCalling
| MsgFinished (rc : Z).

(** The effects of a run, in the order they happen. *)
Inductive event : Type :=
| Printed (m : message)
| ClientConstructed (cfg : llm_config)
| ClientInvoked (cfg : llm_config) (messages : list (str * str))
| FileWritten (p : Path) (content : str)
| PytestRun (p : Path).

(** The state of a run: the text files of the file system (a path is
    mapped to the text that reading it yields), the process environment,
    and the effects so far. *)
Record world : Type := mkWorld {
  files : gmap Path str;
  environ : gmap str str;
  trace : list event
}.

(** The libraries the program calls and that are not part of it: each may
    raise. *)
Class Runtime : Type := {
  cleandoc : str → str;
  ast_parse : str → exn + Ast.module;
  client_init : llm_config → option exn;
  client_invoke : llm_config → list (str * str) → exn + str;
  subprocess_run : Path → exn + Z
}.

(** Computations that read and change the world and may raise. *)
Definition M (A : Type) : Type := world → world * (exn + A).

Definition ret {A} (a : A) : M A := λ w, (w, inr a).
Definition raise {A} (e : exn) : M A := λ w, (w, inl e).
Definition bind {A B} (c : M A) (k : A → M B) : M B :=
  λ w, match c w with
       | (w', inl e) => (w', inl e)
       | (w', inr a) => k a w'
       end.

#[global] Instance M_ret : MRet M := @ret.
#[global] Instance M_bind : MBind M := λ A B k c, bind c k.

Definition emit (e : event) : M unit :=
  λ w, (mkWorld (files w) (environ w) (trace w ++ [e]), inr tt).

(** [os.getenv(key)] and [os.getenv(key, default)]. *)
Definition getenv (key : str) : M (option str) :=
  λ w, (w, inr (environ w !! key)).
Definition getenv_default (key dflt : str) : M str :=
  λ w, (w, inr (default dflt (environ w !! key))).

(** [p.exists()]. *)
Definition path_exists (p : Path) : M bool :=
  λ w, (w, inr (bool_decide (is_Some (files w !! p)))).

(** [open(p, "r", encoding="utf-8")] followed by [f.read()]. *)
Definition read_text (p : Path) : M str :=
  λ w, match files w !! p with
       | Some text => (w, inr text)
       | None => (w, inl (FileNotFoundError p))
       end.

(** [p.write_text(content, encoding="utf-8")]. *)
Definition write_text (p : Path) (content : str) : M unit :=
  λ w, (mkWorld (<[p := content]> (files w)) (environ w)
          (trace w ++ [FileWritten p content]), inr tt).

Definition print (m : message) : M unit := emit (Printed m).

(** The result of a library call. *)
Definition lift {A} (r : exn + A) : M A := λ w, (w, r).

Section Program.
Context {rt : Runtime}.

Definition extract_top_level_functions (py_file_path : Path)
    : M (list FunctionSignature * str) :=
  src ← read_text py_file_path;
  tree ← lift (ast_parse src);
  ret (collect_functions cleandoc tree, src).

(** ** Model client *)

(** [AzureChatOpenAI(...)]. *)
Definition AzureChatOpenAI (cfg : llm_config) : M llm_config :=
  emit (ClientConstructed cfg);;
  match client_init cfg with
  | Some e => raise e
  | None => ret cfg
  end.

(** [llm.invoke(messages).content]. *)
Definition invoke (llm : llm_config) (messages : list (str * str)) : M str :=
  emit (ClientInvoked llm messages);;
  lift (client_invoke llm messages).

Definition call_azure_llm (system_prompt human_prompt : str) : M str :=
  deployment ← getenv (u "AZURE_OPENAI_DEPLOYMENT");
  match deployment with
  | None | Some [] =>
      raise (RuntimeError
               (u "Defina AZURE_OPENAI_DEPLOYMENT no .env (nome do deployment)."))
  | Some deployment =>
      api_version ← getenv_default (u "AZURE_OPENAI_API_VERSION")
                      (u "2023-06-01-preview");
      llm ← AzureChatOpenAI (mkConfig deployment api_version 0%Q 2%Z);
      let messages := [(u "system", system_prompt); (u "human", human_prompt)] in
      invoke llm messages
  end.

(** ** Writer, runner and driver *)

Definition write_test_file (output_path : Path) (content : str) : M unit :=
  write_text output_path content;;
  print (MsgGenerated output_path).

Definition run_pytest_for_file (test_file_path : Path) : M Z :=
  print (MsgRunning test_file_path);;
  emit (PytestRun test_file_path);;
  lift (subprocess_run test_file_path).

(** [main], from the parsed command line: the path and the [--run] flag. *)
Definition main (pyfile_path : Path) (run : bool) : M unit :=
  found ← path_exists pyfile_path;
  if negb found then raise (FileNotFoundError pyfile_path)
  else
    let module_name := stem pyfile_path in
    '(functions, code) ← extract_top_level_functions pyfile_path;
    let '(system_prompt, human_prompt) :=
      build_prompts module_name code functions in
    print MsgCalling;;
    generated ← call_azure_llm system_prompt human_prompt;
    let ensured := ensure_imports_and_header module_name generated functions in
    let dest :=
      joinpath (path_parent pyfile_path) (u "test_" ++ module_name ++ u ".py") in
    write_test_file dest ensured;;
    if run
    then rc ← run_pytest_for_file dest; print (MsgFinished rc)
    else ret tt.

End Program.

(** ** Vocabulary of the properties *)

(** No line-break character, no whitespace at all, and no line break other
    than "\n". *)
Definition nobreak (s : str) : bool := forallb (λ c, negb (is_linebreak c)) s.
Definition nospace (s : str) : bool := forallb (λ c, negb (is_space c)) s.
Definition only_lf (s : str) : bool :=
  forallb (λ c, negb (is_linebreak c) || (c =? LF)) s.

(** A name as Python modules and functions have them: not empty, and
    without whitespace. *)
Definition plain_name (s : str) : bool :=
  match s with [] => false | _ :: _ => nospace s end.

(** Lines, each followed by "\n". *)
Definition unlines (ls : list str) : str := concat (map (λ l, l ++ [LF]) ls).

(** What follows a line break [c]: the "\n" of "\r\n" is part of it. *)
Definition after_break (c : char) (s : str) : str :=
  match s with
  | c' :: s'' => if (c =? CR) && (c' =? LF) then s'' else s
  | [] => s
  end.

(** The "\n" a text lacks at its end: none when it is empty or ends with
    one. *)
Definition tail_nl (t : str) : str :=
  match last t with
  | Some c => if c =? LF then [] else [LF]
  | None => []
  end.

(** The first line of a text, if it has one. *)
Definition first_line (text : str) : option str := head (splitlines text).

(** The guard's own two tests on a text. *)
Definition passes_guard (module_name text : str) : bool :=
  has_pytest_header (splitlines text)
  && existsb (imports_module module_name) (splitlines text).

(** The four ways the guard turns the lines [ls] of the reply into the
    lines [gl] of its result. *)
Inductive guard_shape (module_name : str) (functions : list FunctionSignature)
    (ls : list str) : list str → Prop :=
| shape_kept :
    has_pytest_header ls = true →
    existsb (imports_module module_name) ls = true →
    guard_shape module_name functions ls ls
| shape_header :
    has_pytest_header ls = false →
    existsb (imports_module module_name) (u "import pytest" :: ls) = true →
    guard_shape module_name functions ls (u "import pytest" :: ls)
| shape_import l0 rest :
    ls = l0 :: rest →
    has_pytest_header ls = true →
    existsb (imports_module module_name) ls = false →
    guard_shape module_name functions ls
      (l0 :: import_stmt module_name functions :: rest)
| shape_both :
    has_pytest_header ls = false →
    existsb (imports_module module_name) (u "import pytest" :: ls) = false →
    guard_shape module_name functions ls
      (u "import pytest" :: import_stmt module_name functions :: ls).

(** ** The specification's wording of the guard's contract *)

(** Some line of [text] begins, as written, with [from <module> import] or
    with [import <module>]. *)
Definition spec_import_line (module_name text : str) : Prop :=
  ∃ line, line ∈ splitlines text
          ∧ (startswith (from_prefix module_name) line = true
             ∨ startswith (import_prefix module_name) line = true).

(** The invariant as the specification words it: the first line is exactly
    [import pytest], and some line begins with a module-import prefix. *)
Definition spec_guard_invariant (module_name generated : str)
    (functions : list FunctionSignature) : Prop :=
  first_line (ensure_imports_and_header module_name generated functions)
    = Some (u "import pytest")
  ∧ spec_import_line module_name
      (ensure_imports_and_header module_name generated functions).

(** Conformant content as the specification words it: the first line
    begins with [import pytest] and some line begins with a module-import
    prefix. *)
Definition spec_conformant (module_name text : str) : Prop :=
  (∃ l0, first_line text = Some l0 ∧ startswith (u "import pytest") l0 = true)
  ∧ spec_import_line module_name text.

(** Idempotence as the specification words it: conformant content comes
    back unchanged. *)
Definition spec_guard_identity (module_name text : str)
    (functions : list FunctionSignature) : Prop :=
  spec_conformant module_name text →
  ensure_imports_and_header module_name text functions = text.

(** The insertion rule as the specification words it: when no line begins
    with a module-import prefix, the import statement is the second line of
    the result. *)
Definition spec_second_line (module_name generated : str)
    (functions : list FunctionSignature) : Prop :=
  ¬ spec_import_line module_name generated →
  splitlines (ensure_imports_and_header module_name generated functions) !! 1%nat
    = Some (import_stmt module_name functions).

(** ** The specification's wording of the extractor's contract *)

(** Every parameter a [def] declares, in the order it declares them. *)
Definition declared_parameters (a : Ast.arguments) : list str :=
  map Ast.arg (Ast.posonlyargs a) ++ map Ast.arg (Ast.args a)
  ++ option_list (Ast.arg <$> Ast.vararg a)
  ++ map Ast.arg (Ast.kwonlyargs a)
  ++ option_list (Ast.arg <$> Ast.kwarg a).

(** The functions defined at the top level of a module, as the
    specification counts them: name and declared parameters. *)
Definition declared_functions (body : list Ast.stmt) : list (str * list str) :=
  omap (λ node,
          match node with
          | Ast.FunctionDef n a _ | Ast.AsyncFunctionDef n a _ =>
              Some (n, declared_parameters a)
          | _ => None
          end) body.

(** The extraction as the specification words it. *)
Definition spec_extraction (cleandoc : str → str) (tree : Ast.module) : Prop :=
  map (λ f, (name f, args f)) (collect_functions cleandoc tree)
  = declared_functions (Ast.body tree).

(** The top-level [def] statements, with the parameters that can be passed
    by position or by keyword, and their docstrings. *)
Definition is_def (node : Ast.stmt) : bool :=
  match node with
  | Ast.FunctionDef _ _ _ => true
  | _ => false
  end.

Definition top_level_defs (cleandoc : str → str) (body : list Ast.stmt)
    : list FunctionSignature :=
  omap (λ node,
          match node with
          | Ast.FunctionDef n a b =>
              Some (mkSig n (map Ast.arg (Ast.args a)) (Ast.get_docstring cleandoc b))
          | _ => None
          end) body.

(** ** A sample run *)

(** [def add(a, b): return a + b], then [async def fetch(url): ...], then
    a class with a method. *)
Definition sample_tree : Ast.module :=
  Ast.Module
    [Ast.FunctionDef (u "add")
       (Ast.mkArguments [] [Ast.mkArg (u "a"); Ast.mkArg (u "b")] None [] None)
       [Ast.OtherStmt];
     Ast.AsyncFunctionDef (u "fetch")
       (Ast.mkArguments [] [Ast.mkArg (u "url")] None [] None)
       [Ast.OtherStmt];
     Ast.ClassDef (u "C")
       [Ast.FunctionDef (u "method")
          (Ast.mkArguments [] [Ast.mkArg (u "self")] None [] None)
          [Ast.OtherStmt]]].

(** [async def fetch(url): ...] alone. *)
Definition async_tree : Ast.module :=
  Ast.Module
    [Ast.AsyncFunctionDef (u "fetch")
       (Ast.mkArguments [] [Ast.mkArg (u "url")] None [] None)
       [Ast.OtherStmt]].

(** A function whose only parameter is a starred one, [args]. *)
Definition vararg_tree : Ast.module :=
  Ast.Module
    [Ast.FunctionDef (u "f")
       (Ast.mkArguments [] [] (Some (Ast.mkArg (u "args"))) [] None)
       [Ast.OtherStmt]].

(** Libraries that parse every text to [tree], accept every configuration
    and reply [reply]. *)
Definition sample_runtime (tree : Ast.module) (reply : str) : Runtime :=
  {| cleandoc := λ s, s;
     ast_parse := λ _, inr tree;
     client_init := λ _, None;
     client_invoke := λ _ _, inr reply;
     subprocess_run := λ _, inr 0%Z |}.

Definition sample_path : Path := [u "src"; u "calc.py"].

Definition sample_world : world :=
  mkWorld {[ sample_path := u "def add(a, b): return a + b" ]}
          {[ u "AZURE_OPENAI_DEPLOYMENT" := u "gpt-4o" ]}
          [].

(** ** Vocabulary of the prompt builder's properties *)

(** A text with a character that is not whitespace. *)
Definition solid (s : str) : bool := existsb (λ c, negb (is_space c)) s.

(** [x] stands in [t] between two "\n". *)
Definition has_line (x t : str) : Prop :=
  ∃ pre post, t = pre ++ LF :: x ++ LF :: post.

(** The same, well inside [t]: with more than whitespace on both sides. *)
Definition has_inner_line (x t : str) : Prop :=
  ∃ pre post, t = pre ++ LF :: x ++ LF :: post
              ∧ solid pre = true ∧ solid post = true.

(** ** Vocabulary of the driver's properties *)


(** ** Vocabulary of the further properties *)

(** The world [w] after the effects [events], files and environment as
    they were. *)
Definition logged (w : world) (events : list event) : world :=
  mkWorld (files w) (environ w) (trace w ++ events).

(** The messages sent to the model. *)
Definition chat_messages (system_prompt human_prompt : str) : list (str * str) :=
  [(u "system", system_prompt); (u "human", human_prompt)].

(** The configuration the client is built with in an environment that
    names the deployment. *)
Definition client_config (env : gmap str str) (deployment : str) : llm_config :=
  mkConfig deployment
    (default (u "2023-06-01-preview") (env !! u "AZURE_OPENAI_API_VERSION"))
    0%Q 2%Z.

(** The path [main] writes to. *)
Definition output_path (pyfile_path : Path) : Path :=
  joinpath (path_parent pyfile_path) (u "test_" ++ stem pyfile_path ++ u ".py").


(** Libraries with a given parser result, client and test runner. *)
Definition custom_runtime (parsed : exn + Ast.module) (init : option exn)
    (reply : exn + str) (ran : exn + Z) : Runtime :=
  {| cleandoc := λ s, s;
     ast_parse := λ _, parsed;
     client_init := λ _, init;
     client_invoke := λ _ _, reply;
     subprocess_run := λ _, ran |}.

(** The sample world without its environment. *)
Definition unconfigured_world : world :=
  mkWorld {[ sample_path := u "def add(a, b): return a + b" ]} ∅ [].

(** ** Python strings: lemmas *)

(** The builtins on small inputs. *)
Example splitlines_mixed_breaks :
  splitlines (u "a" ++ [CR; LF] ++ u "b" ++ [LF; LF] ++ u "c" ++ [CR])
  = [u "a"; u "b"; []; u "c"].
Proof. vm_compute. reflexivity. Qed.

Example splitlines_no_final_empty_line :
  splitlines [] = [] ∧ splitlines [LF] = [[]] ∧ splitlines (u "a" ++ [LF]) = [u "a"].
Proof. vm_compute. done. Qed.

Example strip_both_ends : strip (u "  import pytest  " ++ [9; LF]) = u "import pytest".
Proof. vm_compute. reflexivity. Qed.

Example join_names : join (u ", ") [u "a"; u "b"; u "c"] = u "a, b, c".
Proof. vm_compute. reflexivity. Qed.

Example insert_past_the_end : insert_at 1 (u "x") ([] : list (list N)) = [u "x"].
Proof. reflexivity. Qed.

Example utf8_literal : u "função" = [102; 117; 110; 231; 227; 111].
Proof. vm_compute. reflexivity. Qed.

Example stem_of_module : stem [u "src"; u "calc.py"] = u "calc".
Proof. vm_compute. reflexivity. Qed.

Example stem_of_dotfile : stem [u ".env"] = u ".env".
Proof. vm_compute. reflexivity. Qed.

(** The end-to-end scenario of the specification: a reply without the
    imports gets both, in the first two lines. *)
Example guard_scenario :
  ensure_imports_and_header (u "calc") (u "def test_add_success():" ++ [LF]
                                          ++ u "    assert add(1, 2) == 3")
    [mkSig (u "add") [u "a"; u "b"] None]
  = u "import pytest" ++ [LF] ++ u "from calc import add" ++ [LF]
    ++ u "def test_add_success():" ++ [LF]
    ++ u "    assert add(1, 2) == 3" ++ [LF].
Proof. vm_compute. reflexivity. Qed.

Lemma startswith_app (p s : str) : startswith p (p ++ s) = true.
Proof.
  induction p as [|a p IH]; simpl; [done|].
  by rewrite N.eqb_refl, IH.
Qed.

Lemma startswith_inv (p s : str) :
  startswith p s = true → ∃ t, s = p ++ t.
Proof.
  revert s. induction p as [|a p IH]; intros s H; simpl in *.
  - by exists s.
  - destruct s as [|b s]; [done|].
    apply andb_true_iff in H as [Hab H].
    apply N.eqb_eq in Hab as ->.
    destruct (IH _ H) as [t ->]. by exists t.
Qed.

Lemma rstrip_app_keep (p t : str) (b : char) :
  last p = Some b → is_space b = false → rstrip (p ++ t) = p ++ rstrip t.
Proof.
  induction p as [|a p IH]; intros Hl Hb; [done|].
  destruct p as [|a' p].
  - simpl in Hl. injection Hl as ->. simpl. rewrite Hb.
    by destruct (rstrip t).
  - specialize (IH Hl Hb).
    change (rstrip ((a :: a' :: p) ++ t))
      with (match rstrip ((a' :: p) ++ t) with
            | [] => if is_space a then [] else [a]
            | r => a :: r
            end).
    rewrite IH. done.
Qed.

(** Stripping a text keeps a prefix that neither begins nor ends with
    whitespace. *)
Lemma strip_keeps_prefix (p s : str) (a b : char) :
  head p = Some a → is_space a = false →
  last p = Some b → is_space b = false →
  startswith p s = true → startswith p (strip s) = true.
Proof.
  intros Ha Hsa Hb Hsb H.
  apply startswith_inv in H as [t ->].
  unfold strip.
  destruct p as [|a' p]; [done|]. simpl in Ha. injection Ha as ->.
  simpl lstrip. rewrite Hsa.
  change (a :: p ++ t) with ((a :: p) ++ t).
  rewrite (rstrip_app_keep _ _ b Hb Hsb). apply startswith_app.
Qed.

Lemma nobreak_app (s t : str) :
  nobreak (s ++ t) = nobreak s && nobreak t.
Proof. apply forallb_app. Qed.

Lemma is_linebreak_is_space (c : char) : is_linebreak c = true → is_space c = true.
Proof.
  unfold is_linebreak, is_space. intros H.
  repeat (apply orb_true_iff in H as [H|H]);
    apply N.eqb_eq in H; subst c; reflexivity.
Qed.

Lemma nospace_nobreak (s : str) : nospace s = true → nobreak s = true.
Proof.
  unfold nospace, nobreak. rewrite !forallb_forall. intros H c Hc.
  specialize (H c Hc). destruct (is_linebreak c) eqn:E; [|done].
  apply is_linebreak_is_space in E. by rewrite E in H.
Qed.

(** *** Lines *)

Lemma splitlines_from_break (cur : str) (c : char) (s : str) :
  is_linebreak c = true →
  splitlines_from cur (c :: s) = rev cur :: splitlines_from [] (after_break c s).
Proof.
  intros Hc. simpl. rewrite Hc. unfold after_break.
  destruct s as [|c' s'']; [done|]. by destruct ((c =? CR) && (c' =? LF)).
Qed.

Lemma splitlines_from_char (cur : str) (c : char) (s : str) :
  is_linebreak c = false →
  splitlines_from cur (c :: s) = splitlines_from (c :: cur) s.
Proof. intros Hc. simpl. by rewrite Hc. Qed.

Lemma after_break_length (c : char) (s : str) :
  (length (after_break c s) ≤ length s)%nat.
Proof.
  unfold after_break. destruct s as [|c' s'']; [done|].
  destruct ((c =? CR) && (c' =? LF)); simpl; lia.
Qed.

Lemma after_break_lf (s : str) : after_break LF s = s.
Proof. by destruct s. Qed.

(** Reading a line that has no break in it, up to its "\n". *)
Lemma splitlines_from_line (cur l rest : str) :
  nobreak l = true →
  splitlines_from cur (l ++ LF :: rest) = (rev cur ++ l) :: splitlines_from [] rest.
Proof.
  revert cur. induction l as [|c l IH]; intros cur Hl.
  - rewrite app_nil_r. simpl app.
    rewrite splitlines_from_break by done. by rewrite after_break_lf.
  - simpl in Hl. apply andb_true_iff in Hl as [Hc Hl].
    apply negb_true_iff in Hc.
    simpl app. rewrite splitlines_from_char by done.
    rewrite IH by done. simpl. by rewrite <- app_assoc.
Qed.

Lemma splitlines_unlines (ls : list str) :
  forallb nobreak ls = true → splitlines (unlines ls) = ls.
Proof.
  unfold splitlines, unlines.
  induction ls as [|l ls IH]; intros H; [done|].
  simpl in H. apply andb_true_iff in H as [Hl H].
  simpl. rewrite <- app_assoc. simpl.
  rewrite splitlines_from_line by done. simpl. by rewrite IH.
Qed.

Lemma join_unlines (ls : list str) :
  ls ≠ [] → join [LF] ls ++ [LF] = unlines ls.
Proof.
  unfold unlines.
  induction ls as [|l ls IH]; intros H; [done|].
  destruct ls as [|l' ls].
  - simpl. by rewrite app_nil_r.
  - change (join [LF] (l :: l' :: ls)) with (l ++ [LF] ++ join [LF] (l' :: ls)).
    rewrite <- !app_assoc. rewrite IH by done.
    simpl. by rewrite <- !app_assoc.
Qed.

(** Every line [splitlines] returns is free of line breaks. *)
Lemma splitlines_from_nobreak (s cur : str) :
  nobreak cur = true → forallb nobreak (splitlines_from cur s) = true.
Proof.
  remember (length s) as n eqn:Hn.
  revert s cur Hn. induction n as [n IH] using lt_wf_ind. intros s cur Hn Hcur.
  assert (Hrev : nobreak (rev cur) = true).
  { unfold nobreak in *. rewrite forallb_forall in *.
    intros c Hc. apply Hcur. by apply in_rev. }
  destruct s as [|c s].
  - simpl. destruct cur; [done|]. cbn [forallb]. by rewrite Hrev.
  - destruct (is_linebreak c) eqn:Hc.
    + rewrite splitlines_from_break by done. cbn [forallb]. rewrite Hrev. simpl.
      eapply IH; [|reflexivity|done].
      subst n. pose proof (after_break_length c s). simpl. lia.
    + rewrite splitlines_from_char by done.
      eapply IH; [|reflexivity|].
      * subst n. simpl. lia.
      * simpl. by rewrite Hc.
Qed.

Lemma splitlines_nobreak (s : str) : forallb nobreak (splitlines s) = true.
Proof. by apply splitlines_from_nobreak. Qed.

(** Reading through an arbitrary text [t] up to a "\n" ends a line there:
    what follows is read as a fresh text. *)
Lemma splitlines_from_through (t rest cur : str) :
  ∃ pre, splitlines_from cur (t ++ LF :: rest) = pre ++ splitlines_from [] rest.
Proof.
  remember (length t) as n eqn:Hn.
  revert t cur Hn. induction n as [n IH] using lt_wf_ind. intros t cur Hn.
  destruct t as [|c t].
  - exists [rev cur]. simpl app.
    rewrite splitlines_from_break by done. by rewrite after_break_lf.
  - simpl app. destruct (is_linebreak c) eqn:Hc.
    + rewrite splitlines_from_break by done.
      destruct t as [|c' t'].
      * simpl app. unfold after_break.
        destruct ((c =? CR) && (LF =? LF)).
        -- by exists [rev cur].
        -- exists [rev cur; []].
           rewrite splitlines_from_break by done. by rewrite after_break_lf.
      * simpl app. unfold after_break.
        destruct ((c =? CR) && (c' =? LF)).
        -- destruct (IH (length t') ltac:(subst n; simpl; lia) t' [] eq_refl)
             as [pre Hpre].
           exists (rev cur :: pre). by rewrite Hpre.
        -- destruct (IH (length (c' :: t')) ltac:(subst n; simpl; lia)
                       (c' :: t') [] eq_refl) as [pre Hpre].
           exists (rev cur :: pre). simpl app in Hpre. by rewrite Hpre.
    + rewrite splitlines_from_char by done.
      destruct (IH (length t) ltac:(subst n; simpl; lia) t (c :: cur) eq_refl)
        as [pre Hpre].
      by exists pre.
Qed.

Lemma splitlines_from_prefix (p t cur : str) :
  nobreak p = true →
  splitlines_from cur (p ++ t) = splitlines_from (rev p ++ cur) t.
Proof.
  revert cur. induction p as [|c p IH]; intros cur Hp; [done|].
  simpl in Hp. apply andb_true_iff in Hp as [Hc Hp]. apply negb_true_iff in Hc.
  simpl app. rewrite splitlines_from_char by done. rewrite IH by done.
  simpl. by rewrite <- app_assoc.
Qed.

Lemma splitlines_from_head (t cur : str) :
  cur ≠ [] ∨ t ≠ [] →
  ∃ x tl, splitlines_from cur t = (rev cur ++ x) :: tl.
Proof.
  revert cur. induction t as [|c t IH]; intros cur H.
  - destruct H as [H|H]; [|done]. exists [], [].
    simpl. rewrite app_nil_r. by destruct cur.
  - destruct (is_linebreak c) eqn:Hc.
    + rewrite splitlines_from_break by done.
      eexists [], _. by rewrite app_nil_r.
    + rewrite splitlines_from_char by done.
      destruct (IH (c :: cur)) as (x & tl & Hx); [by left|].
      exists (c :: x), tl. rewrite Hx. simpl. by rewrite <- app_assoc.
Qed.

(** The first line of a text that begins with a break-free prefix and
    holds a "\n" later on begins with that prefix. *)
Lemma splitlines_prefix_line (p t rest : str) :
  nobreak p = true →
  ∃ x tl, splitlines (p ++ t ++ LF :: rest) = (p ++ x) :: tl.
Proof.
  intros Hp. unfold splitlines. rewrite splitlines_from_prefix by done.
  destruct (splitlines_from_head (t ++ LF :: rest) (rev p ++ []))
    as (x & tl & Hx).
  { right. by destruct t. }
  exists x, tl. rewrite Hx. by rewrite app_nil_r, rev_involutive.
Qed.

Lemma tail_nl_cons (c : char) (s : str) : s ≠ [] → tail_nl (c :: s) = tail_nl s.
Proof. intros H. unfold tail_nl. by destruct s. Qed.

Lemma tail_nl_app (s t : str) : t ≠ [] → tail_nl (s ++ t) = tail_nl t.
Proof.
  intros H. induction s as [|c s IH]; [done|].
  simpl app. rewrite tail_nl_cons; [done|]. by destruct s, t.
Qed.

Lemma nobreak_last (s : str) (c : char) :
  nobreak s = true → last s = Some c → is_linebreak c = false.
Proof.
  intros Hs Hl. unfold nobreak in Hs. rewrite forallb_forall in Hs.
  apply negb_true_iff, Hs. apply list_elem_of_In.
  apply last_Some in Hl as [l' ->]. set_solver.
Qed.

(** A text whose only line breaks are "\n" is its own lines, each ended
    by "\n": joining them back gives the text, with the "\n" it lacked. *)
Lemma unlines_splitlines_from (s cur : str) :
  only_lf s = true → nobreak cur = true →
  unlines (splitlines_from cur s) = (rev cur ++ s) ++ tail_nl (rev cur ++ s).
Proof.
  revert cur. induction s as [|c s IH]; intros cur Hs Hcur.
  - rewrite app_nil_r. destruct cur as [|a cur]; [done|].
    unfold splitlines_from. unfold unlines. simpl concat. rewrite app_nil_r.
    f_equal. unfold tail_nl.
    destruct (last (rev (a :: cur))) as [b|] eqn:Hl; [|
      by (simpl in Hl; apply last_None in Hl; destruct (rev cur))].
    assert (Hb : is_linebreak b = false).
    { eapply nobreak_last; [|done]. unfold nobreak in *.
      rewrite forallb_forall in *. intros x Hx. apply Hcur. by apply in_rev. }
    destruct (b =? LF) eqn:E; [|done]. apply N.eqb_eq in E. by subst b.
  - simpl in Hs. apply andb_true_iff in Hs as [Hc Hs].
    destruct (is_linebreak c) eqn:Hb.
    + simpl in Hc. apply N.eqb_eq in Hc. subst c.
      rewrite splitlines_from_break by done. rewrite after_break_lf.
      unfold unlines in *. simpl. specialize (IH [] Hs eq_refl). simpl in IH.
      rewrite IH. rewrite <- !app_assoc. simpl. f_equal. f_equal.
      destruct s as [|c s]; simpl.
      * rewrite tail_nl_app by done. done.
      * change (rev cur ++ LF :: c :: s) with (rev cur ++ [LF] ++ (c :: s)).
        rewrite app_assoc. by rewrite tail_nl_app.
    + rewrite splitlines_from_char by done.
      rewrite IH; [|done|by simpl; rewrite Hb].
      simpl. by rewrite <- !app_assoc.
Qed.

Lemma unlines_splitlines (s : str) :
  only_lf s = true → unlines (splitlines s) = s ++ tail_nl s.
Proof. intros H. by apply (unlines_splitlines_from s []). Qed.

(** ** Output guard: structure of the result *)

Lemma guarded_lines_shape (module_name generated : str)
    (functions : list FunctionSignature) :
  guard_shape module_name functions (splitlines generated)
    (guarded_lines module_name generated functions).
Proof.
  unfold guarded_lines. cbv zeta.
  assert (Hi0 : ∀ l : list str,
             insert_at 0 (u "import pytest") l = u "import pytest" :: l) by done.
  rewrite Hi0. clear Hi0.
  destruct (has_pytest_header (splitlines generated)) eqn:Hh; cbn [negb].
  - destruct (existsb (imports_module module_name) (splitlines generated)) eqn:He;
      cbn [negb].
    + by constructor.
    + destruct (splitlines generated) as [|l0 rest] eqn:Hl; [done|].
      by apply (shape_import _ _ _ l0 rest).
  - destruct (existsb (imports_module module_name)
                (u "import pytest" :: splitlines generated)) eqn:He;
      cbn [negb].
    + by constructor.
    + by apply shape_both.
Qed.

(** The result always has a first line, which passes the header test. *)
Lemma guard_shape_head (module_name : str) (functions : list FunctionSignature)
    (ls gl : list str) :
  guard_shape module_name functions ls gl →
  forallb nobreak ls = true →
  ∃ l0 tl, gl = l0 :: tl ∧ nobreak l0 = true
           ∧ startswith (u "import pytest") (strip l0) = true
           ∧ (has_pytest_header ls = false → l0 = u "import pytest").
Proof.
  intros Hs Hls. destruct Hs as [Hh He|Hh He|l0 rest -> Hh He|Hh He].
  - destruct ls as [|l0 rest]; [done|]. exists l0, rest.
    simpl in Hls. apply andb_true_iff in Hls as [Hl0 _].
    repeat split; try done. intros Hf. by rewrite Hf in Hh.
  - exists (u "import pytest"), ls. repeat split; done.
  - eexists l0, _. simpl in Hls. apply andb_true_iff in Hls as [Hl0 _].
    repeat split; try done. intros Hf. by rewrite Hf in Hh.
  - eexists (u "import pytest"), _. repeat split; done.
Qed.

(** The lines of the text built from [gl]: its first line, then the lines
    of the rest. *)
Lemma splitlines_join_head (l0 : str) (tl : list str) :
  nobreak l0 = true →
  splitlines (join [LF] (l0 :: tl) ++ [LF]) = l0 :: splitlines (unlines tl).
Proof.
  intros H. rewrite join_unlines by done. unfold splitlines, unlines.
  simpl. rewrite <- app_assoc. simpl.
  by rewrite splitlines_from_line.
Qed.

Lemma splitlines_join (gl : list str) :
  gl ≠ [] → forallb nobreak gl = true →
  splitlines (join [LF] gl ++ [LF]) = gl.
Proof. intros H1 H2. rewrite join_unlines by done. by apply splitlines_unlines. Qed.

Lemma plain_name_last (s : str) :
  plain_name s = true → ∃ b, last s = Some b ∧ is_space b = false.
Proof.
  intros H. destruct s as [|a s]; [done|].
  change (nospace (a :: s) = true) in H.
  destruct (last (a :: s)) as [b|] eqn:Hl.
  - exists b. split; [done|]. unfold nospace in H. rewrite forallb_forall in H.
    apply negb_true_iff, H. apply list_elem_of_In.
    apply last_Some in Hl as [l' ->]. set_solver.
  - by apply last_None in Hl.
Qed.

Lemma plain_name_nobreak (s : str) : plain_name s = true → nobreak s = true.
Proof.
  intros H. apply nospace_nobreak. by destruct s.
Qed.

(** A line that begins with one of the two prefixes passes the guard's
    test, for a module name that is a plain name. *)
Lemma from_prefix_line (module_name x : str) :
  imports_module module_name (from_prefix module_name ++ x) = true.
Proof.
  unfold imports_module. apply orb_true_iff. left.
  apply (strip_keeps_prefix _ _ 102 116); try done.
  - unfold from_prefix. rewrite app_assoc. by rewrite last_app.
  - apply startswith_app.
Qed.

Lemma import_prefix_line (module_name x : str) :
  plain_name module_name = true →
  imports_module module_name (import_prefix module_name ++ x) = true.
Proof.
  intros Hm. destruct (plain_name_last _ Hm) as (b & Hb & Hsb).
  unfold imports_module. apply orb_true_iff. right.
  apply (strip_keeps_prefix _ _ 105 b); try done.
  - unfold import_prefix. rewrite last_app. by rewrite Hb.
  - apply startswith_app.
Qed.

Lemma from_prefix_nobreak (module_name : str) :
  nobreak module_name = true → nobreak (from_prefix module_name) = true.
Proof.
  intros H. unfold from_prefix. rewrite !nobreak_app, H. reflexivity.
Qed.

Lemma import_prefix_nobreak (module_name : str) :
  nobreak module_name = true → nobreak (import_prefix module_name) = true.
Proof.
  intros H. unfold import_prefix. rewrite !nobreak_app, H. reflexivity.
Qed.

Lemma import_stmt_prefixed (module_name : str) (functions : list FunctionSignature) :
  ∃ t, (import_stmt module_name functions = import_prefix module_name ++ t
        ∧ functions = [])
       ∨ import_stmt module_name functions = from_prefix module_name ++ t.
Proof.
  destruct functions as [|f fs].
  - exists []. left. by rewrite app_nil_r.
  - exists (32 :: joined_names (f :: fs)). right.
    unfold import_stmt, from_prefix. by rewrite <- !app_assoc.
Qed.

(** The inserted import statement puts a line that passes the guard's test
    in the text, whatever follows it. *)
Lemma import_stmt_line (module_name : str) (functions : list FunctionSignature)
    (rest : list str) :
  plain_name module_name = true →
  ∃ line, line ∈ splitlines (unlines (import_stmt module_name functions :: rest))
          ∧ imports_module module_name line = true.
Proof.
  intros Hm. pose proof (plain_name_nobreak _ Hm) as Hnb.
  unfold unlines. simpl. rewrite <- app_assoc. simpl.
  fold (unlines rest).
  destruct (import_stmt_prefixed module_name functions) as [t [[-> _]| ->]];
    rewrite <- app_assoc.
  - destruct (splitlines_prefix_line (import_prefix module_name) t (unlines rest))
      as (x & tl & ->); [by apply import_prefix_nobreak|].
    eexists. split; [apply list_elem_of_here|]. by apply import_prefix_line.
  - destruct (splitlines_prefix_line (from_prefix module_name) t (unlines rest))
      as (x & tl & ->); [by apply from_prefix_nobreak|].
    eexists. split; [apply list_elem_of_here|]. by apply from_prefix_line.
Qed.

Lemma existsb_elem (f : str → bool) (l : list str) :
  existsb f l = true → ∃ x, x ∈ l ∧ f x = true.
Proof.
  intros H. apply existsb_exists in H as (x & Hx & Hf).
  exists x. split; [by apply list_elem_of_In|done].
Qed.

Lemma import_stmt_nobreak (module_name : str) (functions : list FunctionSignature) :
  nobreak module_name = true →
  forallb nobreak (map name functions) = true →
  nobreak (import_stmt module_name functions) = true.
Proof.
  intros Hm Hf. destruct functions as [|f fs].
  - by apply import_prefix_nobreak.
  - unfold import_stmt. rewrite !nobreak_app, Hm. simpl.
    unfold joined_names. revert Hf. generalize (map name (f :: fs)).
    intros l. induction l as [|x l IH]; [done|]. intros H.
    simpl in H. apply andb_true_iff in H as [Hx H].
    destruct l as [|y l]; [done|].
    change (join (u ", ") (x :: y :: l)) with (x ++ u ", " ++ join (u ", ") (y :: l)).
    rewrite !nobreak_app, Hx, IH by done. reflexivity.
Qed.

Lemma guarded_lines_kept (module_name text : str) (functions : list FunctionSignature) :
  passes_guard module_name text = true →
  guarded_lines module_name text functions = splitlines text
  ∧ splitlines text ≠ [].
Proof.
  unfold passes_guard. intros H. apply andb_true_iff in H as [Hh He].
  unfold guarded_lines. cbv zeta. rewrite Hh. cbn [negb]. rewrite He. cbn [negb].
  split; [done|]. by destruct (splitlines text).
Qed.

(** With break-free names, every line of the result is break-free. *)
Lemma guard_shape_nobreak (module_name : str) (functions : list FunctionSignature)
    (ls gl : list str) :
  guard_shape module_name functions ls gl →
  nobreak module_name = true →
  forallb nobreak (map name functions) = true →
  forallb nobreak ls = true →
  gl ≠ [] ∧ forallb nobreak gl = true.
Proof.
  intros Hs Hm Hf Hls.
  pose proof (import_stmt_nobreak module_name functions Hm Hf) as HS.
  destruct Hs as [Hh He|Hh He|l0 rest -> Hh He|Hh He].
  - split; [by destruct ls|done].
  - split; [done|]. simpl. by rewrite Hls.
  - split; [done|]. simpl in *. apply andb_true_iff in Hls as [-> ->].
    by rewrite HS.
  - split; [done|]. simpl. by rewrite HS, Hls.
Qed.

(** The result passes the guard's two tests. *)
Lemma guard_shape_passes (module_name : str) (functions : list FunctionSignature)
    (ls gl : list str) :
  guard_shape module_name functions ls gl →
  plain_name module_name = true →
  has_pytest_header gl = true ∧ existsb (imports_module module_name) gl = true.
Proof.
  intros Hs Hm.
  assert (HS : imports_module module_name (import_stmt module_name functions) = true).
  { destruct (import_stmt_prefixed module_name functions) as [t [[Ht _]|Ht]];
      rewrite Ht.
    - by apply import_prefix_line.
    - by apply from_prefix_line. }
  destruct Hs as [Hh He|Hh He|l0 rest -> Hh He|Hh He].
  - done.
  - done.
  - split; [done|]. simpl. rewrite HS. by rewrite orb_true_r.
  - split; [done|]. simpl. rewrite HS. by rewrite orb_true_r.
Qed.

Lemma splitlines_unlines_through (t : str) (rest : list str) :
  forallb nobreak rest = true →
  ∃ pre, splitlines (unlines (t :: rest)) = pre ++ rest.
Proof.
  intros H. unfold splitlines, unlines. simpl. rewrite <- app_assoc. simpl.
  destruct (splitlines_from_through t (concat (map (λ l, l ++ [LF]) rest)) [])
    as [pre ->].
  exists pre. f_equal. by apply splitlines_unlines.
Qed.

(** ** Output guard: the properties *)

(** The first line of the result passes the header test, and is the
    inserted line when the reply did not pass it. *)
Lemma guard_result_head (module_name generated : str)
    (functions : list FunctionSignature) :
  ∃ l0 tl,
    splitlines (ensure_imports_and_header module_name generated functions)
    = l0 :: tl
    ∧ startswith (u "import pytest") (strip l0) = true
    ∧ (has_pytest_header (splitlines generated) = false → l0 = u "import pytest").
Proof.
  unfold ensure_imports_and_header.
  pose proof (guarded_lines_shape module_name generated functions) as Hs.
  destruct (guard_shape_head _ _ _ _ Hs (splitlines_nobreak generated))
    as (l0 & tl & Hgl & Hl0 & Hhd & Hins).
  exists l0, (splitlines (unlines tl)).
  rewrite Hgl, splitlines_join_head by done. done.
Qed.

(** For a module name that is a plain name, some line of the result passes
    the import test. *)
Lemma guard_result_import (module_name generated : str)
    (functions : list FunctionSignature) :
  plain_name module_name = true →
  ∃ line,
    line ∈ splitlines (ensure_imports_and_header module_name generated functions)
    ∧ imports_module module_name line = true.
Proof.
  intros Hm. unfold ensure_imports_and_header.
  pose proof (guarded_lines_shape module_name generated functions) as Hs.
  pose proof (splitlines_nobreak generated) as Hls.
  revert Hs. generalize (guarded_lines module_name generated functions).
  intros gl Hs.
  destruct Hs as [Hh He|Hh He|l0' rest Hl Hh He|Hh He].
  - rewrite splitlines_join by (by destruct (splitlines generated)).
    by apply existsb_elem.
  - rewrite splitlines_join by (simpl; done).
    by apply existsb_elem.
  - rewrite Hl in Hls. simpl in Hls. apply andb_true_iff in Hls as [Hl0' Hrest].
    rewrite splitlines_join_head by done.
    destruct (import_stmt_line module_name functions rest Hm) as (line & Hin & Hp).
    exists line. split; [by apply list_elem_of_further|done].
  - rewrite splitlines_join_head by done.
    destruct (import_stmt_line module_name functions (splitlines generated) Hm)
      as (line & Hin & Hp).
    exists line. split; [by apply list_elem_of_further|done].
Qed.


(** C1, as worded, fails: the reply [import pytest as pt] passes the
    guard's header test, which asks for a prefix, so the first line of the
    result is that line and not exactly [import pytest]. *)
Lemma guard_invariant_counterexample :
  ¬ spec_guard_invariant (u "m") (u "import pytest as pt") [].
Proof. intros [H _]. vm_compute in H. discriminate H. Qed.

(** C1, amended.  For every reply the result has a first line which, once
    stripped of surrounding whitespace, begins with [import pytest]; it is
    exactly [import pytest] when the guard had to insert it; and for a
    module name that is a plain name some line of the result, once
    stripped, begins with [from <module> import] or [import <module>]. *)
Theorem guard_invariant (module_name generated : str)
    (functions : list FunctionSignature) :
  let out := ensure_imports_and_header module_name generated functions in
  (∃ l0, first_line out = Some l0
         ∧ startswith (u "import pytest") (strip l0) = true)
  ∧ (has_pytest_header (splitlines generated) = false →
     first_line out = Some (u "import pytest"))
  ∧ (plain_name module_name = true →
     ∃ line, line ∈ splitlines out ∧ imports_module module_name line = true).
Proof.
  intros out. subst out. unfold first_line.
  destruct (guard_result_head module_name generated functions)
    as (l0 & tl & Hl & Hh & Hins).
  rewrite Hl. split; [|split].
  - by exists l0.
  - intros Hf. simpl. by rewrite (Hins Hf).
  - intros Hm. rewrite <- Hl. by apply guard_result_import.
Qed.

Lemma guard_invariant_witness :
  plain_name (u "calc") = true
  ∧ ∃ line, line ∈ splitlines (ensure_imports_and_header (u "calc") (u "x = 1") [])
            ∧ imports_module (u "calc") line = true.
Proof.
  split; [reflexivity|].
  apply (guard_invariant (u "calc") (u "x = 1") []). reflexivity.
Defined.

(** C2, as worded, fails: conformant content without a final "\n" does not
    come back byte-identical. *)
Lemma guard_identity_counterexample :
  ¬ spec_guard_identity (u "m") (u "import pytest" ++ [LF] ++ u "import m") [].
Proof.
  intros H. assert (Hc : spec_conformant (u "m")
                           (u "import pytest" ++ [LF] ++ u "import m")).
  { split.
    - exists (u "import pytest"). split; reflexivity.
    - exists (u "import m"). split; [|right; reflexivity].
      vm_compute. apply list_elem_of_further, list_elem_of_here. }
  specialize (H Hc). vm_compute in H. discriminate H.
Qed.

(** C2, amended.  Content that passes the guard's two tests, whose only
    line breaks are "\n" and which ends with one, comes back unchanged; and
    for a module name that is a plain name and signature names without line
    breaks, guarding twice gives what guarding once gives. *)
Theorem guard_idempotent (module_name : str) (functions : list FunctionSignature) :
  (∀ text, passes_guard module_name text = true → only_lf text = true →
           last text = Some LF →
           ensure_imports_and_header module_name text functions = text)
  ∧ (plain_name module_name = true →
     forallb nobreak (map name functions) = true →
     ∀ generated,
       ensure_imports_and_header module_name
         (ensure_imports_and_header module_name generated functions) functions
       = ensure_imports_and_header module_name generated functions).
Proof.
  split.
  - intros text Hp Hlf Hlast. unfold ensure_imports_and_header.
    destruct (guarded_lines_kept module_name text functions Hp) as [-> Hne].
    rewrite join_unlines by done. rewrite unlines_splitlines by done.
    unfold tail_nl. rewrite Hlast. simpl. by rewrite app_nil_r.
  - intros Hm Hf generated.
    pose proof (guarded_lines_shape module_name generated functions) as Hs.
    destruct (guard_shape_nobreak _ _ _ _ Hs (plain_name_nobreak _ Hm) Hf
                (splitlines_nobreak generated)) as [Hne Hnb].
    destruct (guard_shape_passes _ _ _ _ Hs Hm) as [Hh He].
    unfold ensure_imports_and_header at 1.
    assert (Hl : splitlines (ensure_imports_and_header module_name generated functions)
                 = guarded_lines module_name generated functions).
    { unfold ensure_imports_and_header. by apply splitlines_join. }
    assert (Hk : guarded_lines module_name
                   (ensure_imports_and_header module_name generated functions)
                   functions
                 = guarded_lines module_name generated functions).
    { assert (Hp : passes_guard module_name
                     (ensure_imports_and_header module_name generated functions)
                   = true) by (unfold passes_guard; by rewrite Hl, Hh, He).
      destruct (guarded_lines_kept module_name _ functions Hp) as [-> _].
      exact Hl. }
    by rewrite Hk.
Qed.

Lemma guard_idempotent_witness :
  ensure_imports_and_header (u "calc")
    (u "import pytest" ++ [LF] ++ u "import calc" ++ [LF]) []
  = u "import pytest" ++ [LF] ++ u "import calc" ++ [LF]
  ∧ ensure_imports_and_header (u "calc")
      (ensure_imports_and_header (u "calc") (u "x = 1")
         [mkSig (u "add") [u "a"; u "b"] None])
      [mkSig (u "add") [u "a"; u "b"] None]
    = ensure_imports_and_header (u "calc") (u "x = 1")
        [mkSig (u "add") [u "a"; u "b"] None].
Proof.
  split.
  - apply (proj1 (guard_idempotent (u "calc") [])); vm_compute; reflexivity.
  - apply (proj2 (guard_idempotent (u "calc")
                    [mkSig (u "add") [u "a"; u "b"] None])); reflexivity.
Defined.

(** C3.  The lines of the reply appear, in order and unchanged, among the
    lines of the result; the lines the result is built from are those of
    the reply with at most the [import pytest] line put in front and the
    import statement put second. *)
Theorem guard_preserves_lines (module_name generated : str)
    (functions : list FunctionSignature) :
  let ls := splitlines generated in
  let out := ensure_imports_and_header module_name generated functions in
  ls `sublist_of` splitlines out
  ∧ ∃ gl, out = join [LF] gl ++ [LF]
          ∧ (gl = ls
             ∨ gl = u "import pytest" :: ls
             ∨ gl = u "import pytest" :: import_stmt module_name functions :: ls
             ∨ ∃ l0 rest, ls = l0 :: rest
                          ∧ gl = l0 :: import_stmt module_name functions :: rest).
Proof.
  intros ls out. subst ls out. unfold ensure_imports_and_header.
  pose proof (guarded_lines_shape module_name generated functions) as Hs.
  pose proof (splitlines_nobreak generated) as Hls.
  revert Hs. generalize (guarded_lines module_name generated functions).
  intros gl Hs. split.
  - destruct Hs as [Hh He|Hh He|l0 rest Hl Hh He|Hh He].
    + rewrite splitlines_join by (by destruct (splitlines generated)). done.
    + rewrite splitlines_join by (simpl; done). by apply sublist_cons.
    + rewrite Hl in *. simpl in Hls. apply andb_true_iff in Hls as [Hl0 Hrest].
      rewrite splitlines_join_head by done.
      destruct (splitlines_unlines_through (import_stmt module_name functions)
                  rest Hrest) as [pre ->].
      apply sublist_skip. by apply sublist_inserts_l.
    + rewrite splitlines_join_head by done.
      destruct (splitlines_unlines_through (import_stmt module_name functions)
                  (splitlines generated) Hls) as [pre ->].
      apply sublist_cons. by apply sublist_inserts_l.
  - exists gl. split; [done|].
    destruct Hs as [Hh He|Hh He|l0 rest Hl Hh He|Hh He]; eauto 10.
Qed.

(** A module whose name is a beginning of [pytest], here [py]: the line
    [import pytest] itself passes the import test, and no import statement
    is inserted. *)
Example guard_module_named_py :
  ensure_imports_and_header (u "py") (u "x = 1") [mkSig (u "f") [] None]
  = u "import pytest" ++ [LF] ++ u "x = 1" ++ [LF].
Proof. vm_compute. reflexivity. Qed.

(** C4, as worded, fails: in the reply made of the lines [def test_x():]
    and [    import m] no line begins with a module-import prefix, yet the
    guard, which tests stripped lines, finds the indented import and
    inserts nothing: the second line of the result is [def test_x():]. *)
Lemma guard_second_line_counterexample :
  ¬ spec_second_line (u "m") (u "def test_x():" ++ [LF] ++ u "    import m") [].
Proof.
  intros H.
  assert (Hn : ¬ spec_import_line (u "m")
                 (u "def test_x():" ++ [LF] ++ u "    import m")).
  { intros (line & Hin & Hp). vm_compute in Hin.
    apply elem_of_cons in Hin as [->|Hin];
      [|apply list_elem_of_singleton in Hin; subst line];
      destruct Hp as [Hp|Hp]; vm_compute in Hp; discriminate Hp. }
  specialize (H Hn). vm_compute in H. discriminate H.
Qed.

(** C4, amended.  When neither a line of the reply nor the line
    [import pytest], once stripped, begins with a module-import prefix, and
    the names contain no line break, the second line of the result is
    [import <module>] for an empty signature list and
    [from <module> import <names joined by ", ">] otherwise. *)
Theorem guard_inserts_import (module_name generated : str)
    (functions : list FunctionSignature) :
  nobreak module_name = true →
  forallb nobreak (map name functions) = true →
  existsb (imports_module module_name) (splitlines generated) = false →
  imports_module module_name (u "import pytest") = false →
  let out := ensure_imports_and_header module_name generated functions in
  (functions = [] →
   splitlines out !! 1%nat = Some (u "import " ++ module_name))
  ∧ (functions ≠ [] →
     splitlines out !! 1%nat
     = Some (u "from " ++ module_name ++ u " import "
               ++ join (u ", ") (map name functions))).
Proof.
  intros Hm Hf Hno Hpy out.
  assert (H1 : splitlines out !! 1%nat = Some (import_stmt module_name functions)).
  { subst out. unfold ensure_imports_and_header.
    pose proof (guarded_lines_shape module_name generated functions) as Hs.
    destruct (guard_shape_nobreak _ _ _ _ Hs Hm Hf (splitlines_nobreak generated))
      as [Hne Hnb].
    rewrite splitlines_join by done.
    destruct Hs as [Hh He|Hh He|l0 rest Hl Hh He|Hh He]; try done.
    - by rewrite He in Hno.
    - simpl in He. by rewrite Hpy, Hno in He. }
  split; intros Hfs; (etrans; [exact H1|]).
  - by subst functions.
  - by destruct functions.
Qed.

Lemma guard_inserts_import_witness :
  splitlines (ensure_imports_and_header (u "calc") (u "x = 1")
                [mkSig (u "add") [u "a"; u "b"] None; mkSig (u "sub") [] None])
    !! 1%nat
  = Some (u "from calc import add, sub").
Proof.
  apply (guard_inserts_import (u "calc") (u "x = 1")
           [mkSig (u "add") [u "a"; u "b"] None; mkSig (u "sub") [] None]);
    try reflexivity.
  discriminate.
Defined.

(** C9.  The result is the joined lines followed by one "\n", so it ends
    with "\n"; content that passes the guard's tests and does not end with
    "\n" therefore does not come back unchanged, and when its only line
    breaks are "\n" it comes back with a "\n" added. *)
Theorem guard_trailing_newline (module_name generated : str)
    (functions : list FunctionSignature) :
  let out := ensure_imports_and_header module_name generated functions in
  out = join [LF] (guarded_lines module_name generated functions) ++ [LF]
  ∧ last out = Some LF
  ∧ (passes_guard module_name generated = true →
     last generated ≠ Some LF → out ≠ generated)
  ∧ (passes_guard module_name generated = true →
     only_lf generated = true → last generated ≠ Some LF →
     out = generated ++ [LF]).
Proof.
  intros out. subst out.
  assert (Hlast : last (ensure_imports_and_header module_name generated functions)
                  = Some LF).
  { unfold ensure_imports_and_header. by rewrite last_snoc. }
  split; [done|]. split; [done|]. split.
  - intros _ Hl Heq. by rewrite Heq in Hlast.
  - intros Hp Hlf Hl. unfold ensure_imports_and_header.
    destruct (guarded_lines_kept module_name generated functions Hp) as [-> Hne].
    rewrite join_unlines by done. rewrite unlines_splitlines by done.
    f_equal. unfold tail_nl.
    destruct (last generated) as [c|] eqn:Hc.
    + destruct (c =? LF) eqn:E; [|done]. apply N.eqb_eq in E. by subst c.
    + apply last_None in Hc. subst generated. by destruct Hne.
Qed.

Lemma guard_trailing_newline_witness :
  ensure_imports_and_header (u "m") (u "import pytest" ++ [LF] ++ u "import m") []
  = (u "import pytest" ++ [LF] ++ u "import m") ++ [LF].
Proof.
  apply (guard_trailing_newline (u "m") (u "import pytest" ++ [LF] ++ u "import m") []).
  - reflexivity.
  - reflexivity.
  - vm_compute. discriminate.
Defined.

(** ** Signature extractor: the properties *)

Lemma foldl_visit (cleandoc : str → str) (body : list Ast.stmt)
    (funcs : list FunctionSignature) :
  foldl (visit cleandoc) funcs body = funcs ++ top_level_defs cleandoc body.
Proof.
  revert funcs. induction body as [|node body IH]; intros funcs.
  - by rewrite app_nil_r.
  - simpl foldl. rewrite IH. unfold top_level_defs.
    destruct node; simpl; try done. by rewrite <- app_assoc.
Qed.

Lemma collect_functions_defs (cleandoc : str → str) (tree : Ast.module) :
  collect_functions cleandoc tree = top_level_defs cleandoc (Ast.body tree).
Proof. unfold collect_functions. by rewrite foldl_visit. Qed.

Lemma top_level_defs_length (cleandoc : str → str) (body : list Ast.stmt) :
  length (top_level_defs cleandoc body) = length (List.filter is_def body).
Proof.
  induction body as [|node body IH]; [done|].
  unfold top_level_defs in *. destruct node; simpl; try f_equal; exact IH.
Qed.

Lemma top_level_defs_app (cleandoc : str → str) (b1 b2 : list Ast.stmt) :
  top_level_defs cleandoc (b1 ++ b2)
  = top_level_defs cleandoc b1 ++ top_level_defs cleandoc b2.
Proof. apply omap_app. Qed.

Lemma top_level_defs_none (cleandoc : str → str) (body : list Ast.stmt) :
  (∀ node, node ∈ body → is_def node = false) →
  top_level_defs cleandoc body = [].
Proof.
  induction body as [|node body IH]; intros H; [done|].
  assert (Hn : is_def node = false) by (apply H; left).
  unfold top_level_defs in *. simpl.
  destruct node; try done; apply IH; intros n' Hn'; apply H; by right.
Qed.

(** C5, as worded, fails: for a function [f] whose only parameter is the
    starred [args], the extractor returns an empty parameter list, not the
    declared parameter. *)
Lemma extraction_counterexample : ¬ spec_extraction (λ s, s) vararg_tree.
Proof. unfold spec_extraction. vm_compute. discriminate. Qed.

Section Extractor.
Context {rt : Runtime}.

(** C5, amended.  For a file that parses, the extractor returns, with the
    text of the file, one signature per top-level [def] statement ([async
    def] excluded), in source order: as many as there are such statements,
    each with the declared name, the parameters that can be passed by
    position or by keyword, and the docstring.  Statements inside classes,
    functions or compound statements add nothing. *)
Theorem extract_top_level_defs (w : world) (py_file_path : Path) (src : str)
    (tree : Ast.module) :
  files w !! py_file_path = Some src →
  ast_parse src = inr tree →
  ∃ funcs,
    extract_top_level_functions py_file_path w = (w, inr (funcs, src))
    ∧ length funcs = length (List.filter is_def (Ast.body tree))
    ∧ funcs = top_level_defs cleandoc (Ast.body tree)
    ∧ (∀ cname cbody pre post,
         Ast.body tree = pre ++ Ast.ClassDef cname cbody :: post →
         funcs = top_level_defs cleandoc pre ++ top_level_defs cleandoc post)
    ∧ (∀ n a b1 b2 inner pre post,
         Ast.body tree = pre ++ Ast.FunctionDef n a (b1 :: inner) :: post →
         funcs = top_level_defs cleandoc
                   (pre ++ Ast.FunctionDef n a (b1 :: b2) :: post)).
Proof.
  intros Hf Hp. exists (collect_functions cleandoc tree).
  split; [|split; [|split; [|split]]].
  - unfold extract_top_level_functions, mbind, M_bind, bind, read_text, lift.
    by rewrite Hf, Hp.
  - by rewrite collect_functions_defs, top_level_defs_length.
  - apply collect_functions_defs.
  - intros cname cbody pre post Hb.
    by rewrite collect_functions_defs, Hb, top_level_defs_app.
  - intros n a b1 b2 inner pre post Hb.
    by rewrite collect_functions_defs, Hb, !top_level_defs_app.
Qed.

(** C10.  A top-level [async def] adds nothing to the signature list, and
    a module whose top-level statements are all [async def] yields the
    empty list. *)
Theorem extract_skips_async (w : world) (py_file_path : Path) (src : str)
    (tree : Ast.module) :
  files w !! py_file_path = Some src →
  ast_parse src = inr tree →
  (∀ n a b pre post,
     Ast.body tree = pre ++ Ast.AsyncFunctionDef n a b :: post →
     extract_top_level_functions py_file_path w
     = (w, inr (collect_functions cleandoc (Ast.Module (pre ++ post)), src)))
  ∧ ((∀ node, node ∈ Ast.body tree → ∃ n a b, node = Ast.AsyncFunctionDef n a b) →
     extract_top_level_functions py_file_path w = (w, inr ([], src))).
Proof.
  intros Hf Hp.
  assert (He : extract_top_level_functions py_file_path w
               = (w, inr (collect_functions cleandoc tree, src))).
  { unfold extract_top_level_functions, mbind, M_bind, bind, read_text, lift.
    by rewrite Hf, Hp. }
  rewrite He. split.
  - intros n a b pre post Hb. rewrite !collect_functions_defs, Hb.
    simpl Ast.body. by rewrite !top_level_defs_app.
  - intros Hall. rewrite collect_functions_defs, top_level_defs_none; [done|].
    intros node Hn. by destruct (Hall node Hn) as (n & a & b & ->).
Qed.

End Extractor.

Lemma extract_top_level_defs_witness :
  ∃ funcs,
    @extract_top_level_functions (sample_runtime sample_tree []) sample_path
      sample_world
    = (sample_world, inr (funcs, u "def add(a, b): return a + b"))
    ∧ length funcs = 1%nat
    ∧ funcs = [mkSig (u "add") [u "a"; u "b"] None].
Proof.
  destruct (@extract_top_level_defs (sample_runtime sample_tree []) sample_world
              sample_path (u "def add(a, b): return a + b") sample_tree)
    as (funcs & He & Hn & _ & Hc & _).
  - reflexivity.
  - reflexivity.
  - exists funcs. split; [exact He|]. split; [exact Hn|].
    rewrite (Hc (u "C")
               [Ast.FunctionDef (u "method")
                  (Ast.mkArguments [] [Ast.mkArg (u "self")] None [] None)
                  [Ast.OtherStmt]]
               [Ast.FunctionDef (u "add")
                  (Ast.mkArguments [] [Ast.mkArg (u "a"); Ast.mkArg (u "b")]
                     None [] None)
                  [Ast.OtherStmt];
                Ast.AsyncFunctionDef (u "fetch")
                  (Ast.mkArguments [] [Ast.mkArg (u "url")] None [] None)
                  [Ast.OtherStmt]]
               []); reflexivity.
Defined.

Lemma extract_skips_async_witness :
  @extract_top_level_functions (sample_runtime async_tree []) sample_path
    sample_world
  = (sample_world, inr ([], u "def add(a, b): return a + b"))
  ∧ @extract_top_level_functions (sample_runtime sample_tree []) sample_path
      sample_world
    = (sample_world,
       inr ([mkSig (u "add") [u "a"; u "b"] None], u "def add(a, b): return a + b")).
Proof.
  split.
  - apply (@extract_skips_async (sample_runtime async_tree []) sample_world
             sample_path (u "def add(a, b): return a + b") async_tree).
    + reflexivity.
    + reflexivity.
    + intros node Hn. apply list_elem_of_singleton in Hn. subst node. eauto.
  - apply (proj1 (@extract_skips_async (sample_runtime sample_tree []) sample_world
                    sample_path (u "def add(a, b): return a + b") sample_tree
                    eq_refl eq_refl)
             (u "fetch") (Ast.mkArguments [] [Ast.mkArg (u "url")] None [] None)
             [Ast.OtherStmt]
             [Ast.FunctionDef (u "add")
                (Ast.mkArguments [] [Ast.mkArg (u "a"); Ast.mkArg (u "b")]
                   None [] None)
                [Ast.OtherStmt]]
             [Ast.ClassDef (u "C")
                [Ast.FunctionDef (u "method")
                   (Ast.mkArguments [] [Ast.mkArg (u "self")] None [] None)
                   [Ast.OtherStmt]]]).
    reflexivity.
Defined.

(** ** Prompt builder: the properties *)

Lemma solid_app_l (s t : str) : solid s = true → solid (s ++ t) = true.
Proof. intros H. unfold solid in *. by rewrite existsb_app, H. Qed.

Lemma solid_app_r (s t : str) : solid t = true → solid (s ++ t) = true.
Proof. intros H. unfold solid in *. by rewrite existsb_app, H, orb_true_r. Qed.

Lemma lstrip_app_solid (pre rest : str) :
  solid pre = true → lstrip (pre ++ rest) = lstrip pre ++ rest.
Proof.
  induction pre as [|c pre IH]; intros H; [done|].
  simpl in *. destruct (is_space c); [by apply IH|done].
Qed.

Lemma rstrip_app_solid (rest post : str) :
  solid post = true → rstrip (rest ++ post) = rest ++ rstrip post.
Proof.
  intros H.
  assert (Hne : rstrip post ≠ []).
  { induction post as [|c post IH]; [done|].
    simpl in *. destruct (is_space c) eqn:Hc; simpl in H.
    - specialize (IH H). by destruct (rstrip post).
    - by destruct (rstrip post). }
  induction rest as [|c rest IH]; [done|].
  simpl. rewrite IH. by destruct rest, (rstrip post).
Qed.

(** Stripping leaves an inner line where it is. *)
Lemma has_inner_line_strip (x t : str) : has_inner_line x t → has_line x (strip t).
Proof.
  intros (pre & post & -> & Hpre & Hpost). unfold strip.
  rewrite lstrip_app_solid by done.
  exists (lstrip pre), (rstrip post).
  change (lstrip pre ++ LF :: x ++ LF :: post)
    with (lstrip pre ++ (LF :: x) ++ LF :: post).
  rewrite !app_assoc.
  change (((lstrip pre ++ LF :: x) ++ LF :: post))
    with (((lstrip pre ++ LF :: x) ++ [LF] ++ post)).
  rewrite app_assoc. rewrite rstrip_app_solid by done.
  by rewrite <- !app_assoc.
Qed.

Lemma has_inner_line_app (s x t : str) :
  has_inner_line x t → has_inner_line x (s ++ t).
Proof.
  intros (pre & post & -> & Hpre & Hpost).
  exists (s ++ pre), post. rewrite <- app_assoc.
  repeat split; [|done]. by apply solid_app_r.
Qed.



(** A break-free text between two "\n" is one of the lines. *)
Lemma has_line_splitlines (x t : str) :
  has_line x t → nobreak x = true → x ∈ splitlines t.
Proof.
  intros (pre & post & ->) Hx. unfold splitlines.
  destruct (splitlines_from_through pre (x ++ LF :: post) []) as [l ->].
  rewrite splitlines_from_line by done.
  apply elem_of_app. right. apply list_elem_of_here.
Qed.







(** ** Model client and driver: the properties *)

Section Driver.
Context {rt : Runtime}.

(** C6.  Without a deployment name (the variable unset or empty) the call
    raises its configuration error and leaves the world as it was: no
    client is built or invoked.  With one, the first effect is building the
    client with that deployment, temperature 0, two retries, and the API
    version of the environment, or "2023-06-01-preview" when unset. *)
Theorem call_azure_llm_configuration (w : world) (system_prompt human_prompt : str) :
  let key := u "AZURE_OPENAI_DEPLOYMENT" in
  ((environ w !! key = None ∨ environ w !! key = Some []) →
   ∃ msg, call_azure_llm system_prompt human_prompt w = (w, inl (RuntimeError msg)))
  ∧ (∀ deployment,
       environ w !! key = Some deployment → deployment ≠ [] →
       ∃ w' r events,
         call_azure_llm system_prompt human_prompt w = (w', r)
         ∧ trace w' =
             trace w
             ++ ClientConstructed
                  (mkConfig deployment
                     (default (u "2023-06-01-preview")
                        (environ w !! u "AZURE_OPENAI_API_VERSION"))
                     0%Q 2%Z)
                :: events).
Proof.
  intros key. subst key. split.
  - intros H. eexists.
    unfold call_azure_llm, mbind, M_bind, bind, getenv, raise.
    destruct H as [-> | ->]; reflexivity.
  - intros deployment Hd Hne.
    unfold call_azure_llm, mbind, M_bind, bind, getenv, getenv_default.
    rewrite Hd. destruct deployment as [|c d]; [done|].
    unfold AzureChatOpenAI, invoke, mbind, M_bind, bind, emit, raise, ret, lift.
    cbn [files environ trace].
    destruct (client_init _) as [e|].
    + by eexists _, _, [].
    + eexists _, _, [_]. split; [reflexivity|].
      cbn [trace]. by rewrite <- app_assoc.
Qed.




End Driver.


Lemma call_azure_llm_configuration_witness :
  (∃ msg,
     @call_azure_llm (sample_runtime sample_tree []) [] [] (mkWorld ∅ ∅ [])
     = (mkWorld ∅ ∅ [], inl (RuntimeError msg)))
  ∧ ∃ w' r events,
      @call_azure_llm (sample_runtime sample_tree []) [] [] sample_world = (w', r)
      ∧ trace w' =
          ClientConstructed
            (mkConfig (u "gpt-4o") (u "2023-06-01-preview") 0%Q 2%Z)
          :: events.
Proof.
  split.
  - apply (@call_azure_llm_configuration (sample_runtime sample_tree [])
             (mkWorld ∅ ∅ []) [] []).
    left. reflexivity.
  - apply (proj2 (@call_azure_llm_configuration (sample_runtime sample_tree [])
                    sample_world [] []) (u "gpt-4o")).
    + reflexivity.
    + discriminate.
Defined.

(** * Further properties *)

(** ** Model client *)

Section ModelClient.
Context {rt : Runtime}.



(** The call, step by step, when the deployment is named. *)
Lemma call_azure_llm_steps (w : world) (system_prompt human_prompt deployment : str) :
  environ w !! u "AZURE_OPENAI_DEPLOYMENT" = Some deployment →
  deployment ≠ [] →
  call_azure_llm system_prompt human_prompt w
  = match client_init (client_config (environ w) deployment) with
    | Some e =>
        (logged w [ClientConstructed (client_config (environ w) deployment)],
         inl e)
    | None =>
        (logged w
           [ClientConstructed (client_config (environ w) deployment);
            ClientInvoked (client_config (environ w) deployment)
              (chat_messages system_prompt human_prompt)],
         client_invoke (client_config (environ w) deployment)
           (chat_messages system_prompt human_prompt))
    end.
Proof.
  intros Hd Hne.
  unfold call_azure_llm, mbind, M_bind, bind, getenv, getenv_default.
  rewrite Hd. destruct deployment as [|c d]; [done|].
  unfold AzureChatOpenAI, invoke, mbind, M_bind, bind, emit, raise, ret, lift.
  cbn [files environ trace]. unfold client_config, chat_messages, logged.
  destruct (client_init _) as [e|]; [done|].
  cbn [files environ trace]. by rewrite <- app_assoc.
Qed.

Lemma call_azure_llm_unset (w : world) (system_prompt human_prompt : str) :
  environ w !! u "AZURE_OPENAI_DEPLOYMENT" = None
  ∨ environ w !! u "AZURE_OPENAI_DEPLOYMENT" = Some [] →
  ∃ msg, call_azure_llm system_prompt human_prompt w = (w, inl (RuntimeError msg)).
Proof.
  intros H. eexists.
  unfold call_azure_llm, mbind, M_bind, bind, getenv, raise.
  destruct H as [-> | ->]; reflexivity.
Qed.

(** X6.  With the deployment named, the client is built first and invoked
    only if building it succeeded, once, with the system text before the
    human text; an error of either step is the result of the call, and the
    reply of the client is returned as it is. *)
Theorem call_azure_llm_outcome (w : world) (system_prompt human_prompt deployment : str) :
  environ w !! u "AZURE_OPENAI_DEPLOYMENT" = Some deployment →
  deployment ≠ [] →
  let cfg := client_config (environ w) deployment in
  let messages := [(u "system", system_prompt); (u "human", human_prompt)] in
  (∀ e, client_init cfg = Some e →
        call_azure_llm system_prompt human_prompt w
        = (logged w [ClientConstructed cfg], inl e))
  ∧ (client_init cfg = None →
     call_azure_llm system_prompt human_prompt w
     = (logged w [ClientConstructed cfg; ClientInvoked cfg messages],
        client_invoke cfg messages)).
Proof.
  intros Hd Hne cfg messages.
  pose proof (call_azure_llm_steps w system_prompt human_prompt deployment Hd Hne)
    as H.
  fold cfg in H. split.
  - intros e He. by rewrite He in H.
  - intros Hn. by rewrite Hn in H.
Qed.



End ModelClient.

Lemma call_azure_llm_outcome_witness :
  @call_azure_llm (sample_runtime sample_tree (u "x = 1")) (u "s") (u "h")
    sample_world
  = (logged sample_world
       [ClientConstructed (client_config (environ sample_world) (u "gpt-4o"));
        ClientInvoked (client_config (environ sample_world) (u "gpt-4o"))
          [(u "system", u "s"); (u "human", u "h")]],
     inr (u "x = 1")).
Proof.
  apply (proj2 (@call_azure_llm_outcome (sample_runtime sample_tree (u "x = 1"))
                  sample_world (u "s") (u "h") (u "gpt-4o") eq_refl
                  ltac:(discriminate))).
  reflexivity.
Defined.


(** ** Paths *)







(** ** Extractor, writer and driver *)

Section MainRun.
Context {rt : Runtime}.

(** The extractor, step by step. *)
Lemma extract_steps (w : world) (py_file_path : Path) :
  extract_top_level_functions py_file_path w
  = match files w !! py_file_path with
    | None => (w, inl (FileNotFoundError py_file_path))
    | Some src =>
        match ast_parse src with
        | inl e => (w, inl e)
        | inr tree => (w, inr (collect_functions cleandoc tree, src))
        end
    end.
Proof.
  unfold extract_top_level_functions, mbind, M_bind, bind, read_text, lift, ret.
  destruct (files w !! py_file_path) as [src|]; [|done].
  by destruct (ast_parse src).
Qed.

(** X1.  The extractor has no effect on the world, whatever happens; a
    missing file gives [FileNotFoundError] for that path, and an error of
    the parser is the result as it is. *)
Theorem extract_errors (w : world) (py_file_path : Path) :
  (∃ r, extract_top_level_functions py_file_path w = (w, r))
  ∧ (files w !! py_file_path = None →
     extract_top_level_functions py_file_path w
     = (w, inl (FileNotFoundError py_file_path)))
  ∧ (∀ src e, files w !! py_file_path = Some src → ast_parse src = inl e →
              extract_top_level_functions py_file_path w = (w, inl e)).
Proof.
  rewrite extract_steps. split; [|split].
  - destruct (files w !! py_file_path) as [src|]; [|by eexists].
    destruct (ast_parse src); by eexists.
  - by intros ->.
  - intros src e -> Hp. by rewrite Hp.
Qed.

(** X2.  The signatures of a module are those of its first statements
    followed by those of the rest: each top-level statement is looked at
    on its own, in order. *)
Theorem collect_functions_app (b1 b2 : list Ast.stmt) :
  collect_functions cleandoc (Ast.Module (b1 ++ b2))
  = collect_functions cleandoc (Ast.Module b1)
    ++ collect_functions cleandoc (Ast.Module b2).
Proof.
  unfold collect_functions. simpl Ast.body.
  rewrite foldl_app. rewrite (foldl_visit _ b2 (foldl _ _ b1)).
  by rewrite (foldl_visit _ b2 []).
Qed.


(** The driver, step by step, once the source is read and parsed. *)
Lemma main_steps (w : world) (pyfile_path : Path) (run : bool) (code : str)
    (tree : Ast.module) :
  files w !! pyfile_path = Some code →
  ast_parse code = inr tree →
  main pyfile_path run w
  = match call_azure_llm
            (build_prompts (stem pyfile_path) code
               (collect_functions cleandoc tree)).1
            (build_prompts (stem pyfile_path) code
               (collect_functions cleandoc tree)).2
            (logged w [Printed MsgCalling]) with
    | (w2, inl e) => (w2, inl e)
    | (w2, inr generated) =>
        let ensured :=
          ensure_imports_and_header (stem pyfile_path) generated
            (collect_functions cleandoc tree) in
        let dest := output_path pyfile_path in
        let w3 :=
          mkWorld (<[dest := ensured]> (files w2)) (environ w2)
            (trace w2 ++ [FileWritten dest ensured; Printed (MsgGenerated dest)]) in
        if run then
          match subprocess_run dest with
          | inl e => (logged w3 [Printed (MsgRunning dest); PytestRun dest], inl e)
          | inr rc =>
              (logged w3 [Printed (MsgRunning dest); PytestRun dest;
                          Printed (MsgFinished rc)], inr tt)
          end
        else (w3, inr tt)
    end.
Proof.
  intros Hf Hp.
  unfold main, mbind, M_bind, bind, path_exists.
  rewrite bool_decide_eq_true_2 by (by rewrite Hf; eexists). cbn [negb].
  rewrite extract_steps, Hf, Hp.
  unfold build_prompts at 1. unfold print, emit at 1. cbn [fst snd].
  fold (logged w [Printed MsgCalling]).
  change (strip system_prompt_text)
    with (build_prompts (stem pyfile_path) code
            (collect_functions cleandoc tree)).1.
  change (strip (human_template (stem pyfile_path)
                   (collect_functions cleandoc tree)))
    with (build_prompts (stem pyfile_path) code
            (collect_functions cleandoc tree)).2.
  destruct (call_azure_llm _ _ _) as [w2 [e|generated]]; [done|].
  fold (output_path pyfile_path). cbv zeta.
  unfold write_test_file, mbind, M_bind, bind, write_text, print, emit.
  cbn [files environ trace].
  destruct run.
  - unfold run_pytest_for_file, mbind, M_bind, bind, print, emit, lift, logged.
    cbn [files environ trace].
    destruct (subprocess_run _) as [e|rc]; by rewrite <- !app_assoc.
  - by rewrite <- !app_assoc.
Qed.

(** X13.  Errors of the input stop the run before anything is printed,
    called or written: a missing source file gives [FileNotFoundError], a
    source that does not parse gives the parser's error, and the world is
    as it was. *)
Theorem main_input_errors (w : world) (pyfile_path : Path) (run : bool) :
  (files w !! pyfile_path = None →
   main pyfile_path run w = (w, inl (FileNotFoundError pyfile_path)))
  ∧ (∀ code e, files w !! pyfile_path = Some code → ast_parse code = inl e →
               main pyfile_path run w = (w, inl e)).
Proof.
  split.
  - intros Hf. unfold main, mbind, M_bind, bind, path_exists.
    rewrite bool_decide_eq_false_2; [done|]. rewrite Hf. by intros [? ?].
  - intros code e Hf Hp. unfold main, mbind, M_bind, bind, path_exists.
    rewrite bool_decide_eq_true_2 by (by rewrite Hf; eexists). cbn [negb].
    by rewrite extract_steps, Hf, Hp.
Qed.

(** X14.  The configuration is looked at only after the source is read
    and parsed: with a good source and no deployment name the run prints
    that it is calling the model, then ends in the configuration error,
    with no client built and no file written. *)
Theorem main_missing_configuration (w : world) (pyfile_path : Path) (run : bool)
    (code : str) (tree : Ast.module) :
  files w !! pyfile_path = Some code →
  ast_parse code = inr tree →
  environ w !! u "AZURE_OPENAI_DEPLOYMENT" = None
  ∨ environ w !! u "AZURE_OPENAI_DEPLOYMENT" = Some [] →
  ∃ msg,
    main pyfile_path run w
    = (logged w [Printed MsgCalling], inl (RuntimeError msg)).
Proof.
  intros Hf Hp He.
  rewrite (main_steps w pyfile_path run code tree Hf Hp).
  destruct (call_azure_llm_unset (logged w [Printed MsgCalling])
              (build_prompts (stem pyfile_path) code
                 (collect_functions cleandoc tree)).1
              (build_prompts (stem pyfile_path) code
                 (collect_functions cleandoc tree)).2 He) as [msg ->].
  by exists msg.
Qed.

End MainRun.

Section Runs.
Context {rt : Runtime}.








End Runs.

(** ** Output guard *)

Lemma startswith_trans (a b c : str) :
  startswith a b = true → startswith b c = true → startswith a c = true.
Proof.
  intros Hab Hbc.
  apply startswith_inv in Hab as [t ->]. apply startswith_inv in Hbc as [t' ->].
  rewrite <- app_assoc. apply startswith_app.
Qed.

Lemma startswith_refl (p : str) : startswith p p = true.
Proof. rewrite <- (app_nil_r p) at 2. apply startswith_app. Qed.

Lemma strip_pytest_line : strip (u "import pytest") = u "import pytest".
Proof. vm_compute. reflexivity. Qed.

Lemma only_lf_app (s t : str) : only_lf (s ++ t) = only_lf s && only_lf t.
Proof. apply forallb_app. Qed.

Lemma only_lf_unlines (ls : list str) :
  forallb nobreak ls = true → only_lf (unlines ls) = true.
Proof.
  induction ls as [|l ls IH]; intros H; [done|].
  simpl in H. apply andb_true_iff in H as [Hl H].
  unfold unlines in *. simpl. rewrite <- app_assoc, !only_lf_app, IH by done.
  assert (Hl' : only_lf l = true).
  { unfold nobreak, only_lf in *. rewrite forallb_forall in *.
    intros c Hc. by rewrite (Hl c Hc). }
  by rewrite Hl'.
Qed.

(** X8.  On an empty reply the result is the line [import pytest]
    followed by the import statement; for a module name that is a
    beginning of [pytest] it is the line [import pytest] alone. *)
Theorem guard_empty_reply (module_name : str) (functions : list FunctionSignature) :
  (imports_module module_name (u "import pytest") = false →
   ensure_imports_and_header module_name [] functions
   = u "import pytest" ++ [LF] ++ import_stmt module_name functions ++ [LF])
  ∧ (imports_module module_name (u "import pytest") = true →
     ensure_imports_and_header module_name [] functions
     = u "import pytest" ++ [LF]).
Proof.
  unfold ensure_imports_and_header, guarded_lines.
  change (splitlines []) with (@nil (list N)). cbv zeta.
  cbn [has_pytest_header negb].
  change (insert_at 0 (u "import pytest") []) with [u "import pytest"].
  cbn [existsb]. split; intros H; rewrite H; cbn [orb negb].
  - change (insert_at 1 (import_stmt module_name functions) [u "import pytest"])
      with [u "import pytest"; import_stmt module_name functions].
    cbn [join]. by rewrite <- !app_assoc.
  - done.
Qed.

(** X9.  With names free of line breaks, the only line breaks of the
    result are "\n", whatever breaks the reply used, and splitting the
    result into lines gives back exactly the lines the guard assembled. *)
Theorem guard_normalizes_breaks (module_name generated : str)
    (functions : list FunctionSignature) :
  nobreak module_name = true →
  forallb nobreak (map name functions) = true →
  only_lf (ensure_imports_and_header module_name generated functions) = true
  ∧ splitlines (ensure_imports_and_header module_name generated functions)
    = guarded_lines module_name generated functions.
Proof.
  intros Hm Hf. unfold ensure_imports_and_header.
  pose proof (guarded_lines_shape module_name generated functions) as Hs.
  destruct (guard_shape_nobreak _ _ _ _ Hs Hm Hf (splitlines_nobreak generated))
    as [Hne Hnb].
  split.
  - rewrite join_unlines by done. by apply only_lf_unlines.
  - by apply splitlines_join.
Qed.

(** X10.  For a module name that is a beginning of [pytest] ([py], say)
    the import statement is never inserted: the line [import pytest],
    found in the reply or put in front of it, already passes the import
    test. *)
Theorem guard_prefix_module (module_name generated : str)
    (functions : list FunctionSignature) :
  startswith (import_prefix module_name) (u "import pytest") = true →
  guarded_lines module_name generated functions
  = if has_pytest_header (splitlines generated)
    then splitlines generated
    else u "import pytest" :: splitlines generated.
Proof.
  intros Hp.
  pose proof (guarded_lines_shape module_name generated functions) as Hs.
  revert Hs. generalize (guarded_lines module_name generated functions).
  intros gl Hs.
  destruct Hs as [Hh He|Hh He|l0 rest Hl Hh He|Hh He]; rewrite ?Hh; try done.
  - rewrite Hl in He, Hh. simpl in Hh. cbn [existsb] in He.
    apply orb_false_iff in He as [He _]. unfold imports_module in He.
    apply orb_false_iff in He as [_ He].
    by rewrite (startswith_trans _ _ _ Hp Hh) in He.
  - cbn [existsb] in He. apply orb_false_iff in He as [He _].
    unfold imports_module in He. apply orb_false_iff in He as [_ He].
    rewrite strip_pytest_line in He. by rewrite Hp in He.
Qed.

(** X11.  A reply that obeys the first two rules of the prompt (the line
    [import pytest], then [from <module> import <the names the prompt
    lists>], then any lines, each ended by "\n") comes back from the guard
    unchanged. *)
Theorem guard_accepts_prompt_rules (module_name : str)
    (functions : list FunctionSignature) (rest : list str) :
  nobreak module_name = true →
  forallb nobreak (map name functions) = true →
  forallb nobreak rest = true →
  let reply :=
    unlines (u "import pytest"
             :: (u "from " ++ module_name ++ u " import " ++ tested_symbols functions)
             :: rest) in
  ensure_imports_and_header module_name reply functions = reply.
Proof.
  intros Hm Hf Hrest reply.
  set (line2 := u "from " ++ module_name ++ u " import " ++ tested_symbols functions)
    in *.
  assert (H2 : nobreak line2 = true).
  { subst line2. rewrite !nobreak_app, Hm.
    assert (Ht : nobreak (tested_symbols functions) = true).
    { destruct functions as [|f fs]; [vm_compute; reflexivity|].
      pose proof (import_stmt_nobreak module_name (f :: fs) Hm Hf) as Hs.
      unfold import_stmt in Hs. rewrite !nobreak_app in Hs.
      unfold tested_symbols. by repeat (apply andb_true_iff in Hs as [_ Hs]). }
    rewrite Ht. vm_compute. reflexivity. }
  assert (Hi : imports_module module_name line2 = true).
  { assert (E : line2 = from_prefix module_name ++ 32 :: tested_symbols functions).
    { subst line2. unfold from_prefix. by rewrite <- !app_assoc. }
    rewrite E. apply from_prefix_line. }
  assert (Hl : splitlines reply = u "import pytest" :: line2 :: rest).
  { subst reply. apply splitlines_unlines. cbn [forallb]. by rewrite H2, Hrest. }
  assert (Hp : passes_guard module_name reply = true).
  { unfold passes_guard. rewrite Hl. cbn [has_pytest_header existsb].
    rewrite strip_pytest_line, Hi, orb_true_r.
    by rewrite startswith_refl. }
  unfold ensure_imports_and_header.
  destruct (guarded_lines_kept module_name reply functions Hp) as [-> Hne].
  rewrite Hl. by rewrite join_unlines.
Qed.

Lemma guard_empty_reply_witness :
  ensure_imports_and_header (u "calc") [] [mkSig (u "add") [u "a"; u "b"] None]
  = u "import pytest" ++ [LF]
    ++ import_stmt (u "calc") [mkSig (u "add") [u "a"; u "b"] None] ++ [LF]
  ∧ ensure_imports_and_header (u "py") [] [] = u "import pytest" ++ [LF].
Proof.
  split.
  - apply (proj1 (guard_empty_reply (u "calc") [mkSig (u "add") [u "a"; u "b"] None])).
    vm_compute. reflexivity.
  - apply (proj2 (guard_empty_reply (u "py") [])). vm_compute. reflexivity.
Defined.

Lemma guard_normalizes_breaks_witness :
  only_lf (ensure_imports_and_header (u "calc") (u "x = 1" ++ [CR; LF] ++ u "y = 2")
             [mkSig (u "add") [u "a"; u "b"] None]) = true
  ∧ splitlines (ensure_imports_and_header (u "calc")
                  (u "x = 1" ++ [CR; LF] ++ u "y = 2")
                  [mkSig (u "add") [u "a"; u "b"] None])
    = guarded_lines (u "calc") (u "x = 1" ++ [CR; LF] ++ u "y = 2")
        [mkSig (u "add") [u "a"; u "b"] None].
Proof.
  apply (guard_normalizes_breaks (u "calc") (u "x = 1" ++ [CR; LF] ++ u "y = 2")
           [mkSig (u "add") [u "a"; u "b"] None]); vm_compute; reflexivity.
Defined.

Lemma guard_prefix_module_witness :
  guarded_lines (u "py") (u "x = 1") [mkSig (u "f") [] None]
  = if has_pytest_header (splitlines (u "x = 1"))
    then splitlines (u "x = 1")
    else u "import pytest" :: splitlines (u "x = 1").
Proof.
  apply (guard_prefix_module (u "py") (u "x = 1") [mkSig (u "f") [] None]).
  vm_compute. reflexivity.
Defined.

Lemma guard_accepts_prompt_rules_witness :
  ensure_imports_and_header (u "calc")
    (unlines [u "import pytest"; u "from " ++ u "calc" ++ u " import "
                                 ++ tested_symbols [mkSig (u "add") [u "a"; u "b"] None];
              u "def test_add_success():"; u "    assert add(1, 2) == 3"])
    [mkSig (u "add") [u "a"; u "b"] None]
  = unlines [u "import pytest"; u "from " ++ u "calc" ++ u " import "
                                ++ tested_symbols [mkSig (u "add") [u "a"; u "b"] None];
             u "def test_add_success():"; u "    assert add(1, 2) == 3"].
Proof.
  apply (guard_accepts_prompt_rules (u "calc") [mkSig (u "add") [u "a"; u "b"] None]
           [u "def test_add_success():"; u "    assert add(1, 2) == 3"]);
    vm_compute; reflexivity.
Defined.

(** ** Prompt builder *)




(** Finds a text with more than whitespace in it. *)
Ltac solid_tac :=
  repeat first [ apply solid_app_l; vm_compute; reflexivity | apply solid_app_r ].

Lemma lstrip_request_head :
  lstrip ([LF] ++ u "Gere um arquivo pytest para o módulo ")
  = u "Gere um arquivo pytest para o módulo ".
Proof. vm_compute. reflexivity. Qed.

Lemma rstrip_py_tail : rstrip (u ".py" ++ [LF]) = u ".py".
Proof. vm_compute. reflexivity. Qed.

(** X4.  The human text has no blank at either end: it begins with the
    request that names the module, between double quotes, and ends with the
    name of the file to produce, [test_<module>.py]. *)
Theorem build_prompts_frame (module_name module_code : str)
    (functions : list FunctionSignature) :
  let human := (build_prompts module_name module_code functions).2 in
  (u "Gere um arquivo pytest para o módulo " ++ [QUOTE] ++ module_name ++ [QUOTE])
    `prefix_of` human
  ∧ (u "Gerar agora somente o conteúdo do arquivo test_" ++ module_name ++ u ".py")
      `suffix_of` human.
Proof.
  intros human. subst human. unfold build_prompts. cbn [snd].
  unfold strip, human_template.
  rewrite (app_assoc [LF]).
  rewrite lstrip_app_solid by (vm_compute; reflexivity).
  rewrite lstrip_request_head.
  repeat rewrite rstrip_app_solid by solid_tac.
  rewrite rstrip_py_tail.
  split.
  - eexists. rewrite <- !app_assoc. reflexivity.
  - repeat match goal with
      | |- _ `suffix_of`
             (u "Gerar agora somente o conteúdo do arquivo test_" ++ _) => fail 1
      | |- _ `suffix_of` (_ ++ _) => apply suffix_app_r
      end.
    reflexivity.
Qed.

Lemma app_group4 (a b c d e : str) :
  a ++ b ++ c ++ d ++ e = (a ++ b ++ c ++ d) ++ e.
Proof. by rewrite <- !app_assoc. Qed.

Lemma has_inner_line_between (x h tl : str) :
  solid h = true → solid tl = true →
  has_inner_line x (h ++ [LF] ++ x ++ [LF] ++ tl).
Proof. intros Hh Htl. by exists h, tl. Qed.

(** X5.  The human text asks, on a line of its own, for the import
    [from <module> import <names>], the names joined by ", " as the guard
    joins them, and [from <module> import *] when there is no
    signature. *)
Theorem build_prompts_import_rule (module_name module_code : str)
    (functions : list FunctionSignature) :
  let human := (build_prompts module_name module_code functions).2 in
  let rule :=
    u "2) Inclua import dos simbolos testados: from " ++ module_name
    ++ u " import " ++ tested_symbols functions in
  has_line rule human
  ∧ (nobreak rule = true → rule ∈ splitlines human)
  ∧ (functions = [] → tested_symbols functions = u "*")
  ∧ (functions ≠ [] →
     u " import " ++ tested_symbols functions
     = u " import " ++ join (u ", ") (map name functions)).
Proof.
  intros human rule. subst human.
  assert (H : has_line rule (strip (human_template module_name functions))).
  { apply has_inner_line_strip. subst rule. unfold human_template.
    repeat match goal with
      | |- has_inner_line _
             (_ ++ [LF] ++ u "2) Inclua import dos simbolos testados: from " ++ _) =>
          fail 1
      | |- has_inner_line _ (_ ++ _) => apply has_inner_line_app
      end.
    match goal with
    | |- has_inner_line _ (?h ++ [LF] ++ ?a ++ ?b ++ ?c ++ ?d ++ [LF] ++ ?tl) =>
        rewrite (app_group4 a b c d ([LF] ++ tl))
    end.
    apply has_inner_line_between; [vm_compute; reflexivity|solid_tac]. }
  unfold build_prompts. cbn [snd].
  split; [exact H|]. split; [intros Hnb; by apply has_line_splitlines|].
  split; [by intros ->|]. intros Hne. by destruct functions.
Qed.

Lemma build_prompts_import_rule_witness :
  (u "2) Inclua import dos simbolos testados: from " ++ u "calc"
   ++ u " import " ++ tested_symbols [mkSig (u "add") [u "a"; u "b"] None])
  ∈ splitlines (build_prompts (u "calc") []
                  [mkSig (u "add") [u "a"; u "b"] None]).2
  ∧ tested_symbols [] = u "*".
Proof.
  destruct (build_prompts_import_rule (u "calc") []
              [mkSig (u "add") [u "a"; u "b"] None]) as (_ & H & _).
  destruct (build_prompts_import_rule (u "calc") [] []) as (_ & _ & H0 & _).
  split; [apply H; vm_compute; reflexivity|]. by apply H0.
Defined.

(** ** Sample runs of the further properties *)

Lemma extract_errors_witness :
  @extract_top_level_functions (sample_runtime sample_tree []) [u "nowhere.py"]
    sample_world
  = (sample_world, inl (FileNotFoundError [u "nowhere.py"]))
  ∧ @extract_top_level_functions
      (custom_runtime (inl (LibraryError 1)) None (inr []) (inr 0%Z))
      sample_path sample_world
    = (sample_world, inl (LibraryError 1)).
Proof.
  split.
  - apply (@extract_errors (sample_runtime sample_tree []) sample_world
             [u "nowhere.py"]).
    vm_compute. reflexivity.
  - apply (proj2 (proj2 (@extract_errors
                           (custom_runtime (inl (LibraryError 1)) None (inr [])
                              (inr 0%Z))
                           sample_world sample_path))
             (u "def add(a, b): return a + b")).
    + vm_compute. reflexivity.
    + reflexivity.
Defined.


Lemma main_input_errors_witness :
  @main (sample_runtime sample_tree []) [u "nowhere.py"] true sample_world
  = (sample_world, inl (FileNotFoundError [u "nowhere.py"]))
  ∧ @main (custom_runtime (inl (LibraryError 1)) None (inr []) (inr 0%Z))
      sample_path true sample_world
    = (sample_world, inl (LibraryError 1)).
Proof.
  split.
  - apply (@main_input_errors (sample_runtime sample_tree []) sample_world
             [u "nowhere.py"] true).
    vm_compute. reflexivity.
  - apply (proj2 (@main_input_errors
                    (custom_runtime (inl (LibraryError 1)) None (inr []) (inr 0%Z))
                    sample_world sample_path true)
             (u "def add(a, b): return a + b")).
    + vm_compute. reflexivity.
    + reflexivity.
Defined.

Lemma main_missing_configuration_witness :
  ∃ msg,
    @main (sample_runtime sample_tree []) sample_path false unconfigured_world
    = (logged unconfigured_world [Printed MsgCalling], inl (RuntimeError msg)).
Proof.
  apply (@main_missing_configuration (sample_runtime sample_tree [])
           unconfigured_world sample_path false
           (u "def add(a, b): return a + b") sample_tree).
  - vm_compute. reflexivity.
  - reflexivity.
  - left. vm_compute. reflexivity.
Defined.






